(** * Configuration patcher scripts: [setup-auto-approval.py] and
      [setup-yolo-mode.py]

    Both scripts load [~/.claude.json], patch the records of two fixed
    project paths inside the parsed document, copy the file on disk to a
    backup with [cp] and write the patched document back.

    The development has three layers:
    - JSON values as Python's [json] module produces them, with the
      handful of Python operations the scripts apply to them
      ([x[k]], [x[k] = v], [k in x]) and the exceptions they raise;
    - the two update loops, as functions on the parsed document;
    - the two scripts, as state transformers on a file system. *)

From stdpp Require Import gmap strings list fin_maps.
From Stdlib Require Import ZArith Ascii.

Set Warnings "-register-all,-clear-no-such-hyp".
Set Default Proof Using "Type".

Local Open Scope Z_scope.
Local Open Scope string_scope.

(** ** JSON values

    [json.load] builds [None], [bool], [int], [float], [str], [list] and
    [dict] objects.  A [dict] obtained from JSON has string keys; it is a
    finite map here, so the position of a key inside an object, which only
    shows in the layout of the serialised text, is not represented.  A
    [float] is carried as its literal: neither script looks inside one. *)

Inductive json : Type :=
| JNull
| JBool (b : bool)
| JInt (n : Z)
| JFloat (literal : string)
| JStr (s : string)
| JArr (items : list json)
| JObj (fields : gmap string json).

(** ** Exceptions *)

Inductive exn : Type :=
| FileNotFoundError
| JSONDecodeError
| KeyError (key : string)
| TypeError.

Inductive outcome (A : Type) : Type :=
| Done (a : A)
| Raised (e : exn).
Arguments Done {A} a.
Arguments Raised {A} e.

#[global] Instance outcome_ret : MRet outcome := @Done.
#[global] Instance outcome_bind : MBind outcome := λ A B f c,
  match c with
  | Done a => f a
  | Raised e => Raised e
  end.


(** ** Python operations on parsed JSON *)

(** [x[k]] for a string [k].  A [dict] raises [KeyError] on a missing
    key; a [list] or a [str] only takes integer indices and every other
    value is not subscriptable: [TypeError]. *)
Definition getitem (x : json) (k : string) : outcome json :=
  match x with
  | JObj fields =>
      match fields !! k with
      | Some v => Done v
      | None => Raised (KeyError k)
      end
  | _ => Raised TypeError
  end.

(** [x[k] = v] for a string [k]: only a [dict] accepts it. *)
Definition setitem (x : json) (k : string) (v : json) : outcome json :=
  match x with
  | JObj fields => Done (JObj (<[k := v]> fields))
  | _ => Raised TypeError
  end.

Definition is_str (k : string) (x : json) : bool :=
  match x with
  | JStr s => String.eqb s k
  | _ => false
  end.

(** [k in x] for a string [k]: key membership in a [dict], element
    membership in a [list] (a string equals only a string), substring
    test in a [str]; the other values are not iterable. *)
Definition contains (x : json) (k : string) : outcome bool :=
  match x with
  | JObj fields => Done (bool_decide (is_Some (fields !! k)))
  | JArr items => Done (existsb (is_str k) items)
  | JStr s => Done (bool_decide (is_Some (String.index 0 k s)))
  | _ => Raised TypeError
  end.

(** [x[k]... = v], an assignment below [x[k]]: Python fetches the object
    [x[k]] and mutates it in place.  The objects built by [json.load] form
    a tree, each reachable through its parent only, so the mutation is the
    replacement of [x[k]] by the mutated object. *)
Definition update_at (x : json) (k : string) (f : json → outcome json)
  : outcome json :=
  inner ← getitem x k;
  inner' ← f inner;
  setitem x k inner'.

(** [for x in xs: body], threading the mutated object. *)
Fixpoint for_each {S A} (body : S → A → outcome S) (xs : list A) (s : S)
  : outcome S :=
  match xs with
  | [] => Done s
  | x :: xs' => s' ← body s x; for_each body xs' s'
  end.

(** ** Constants of the scripts *)

Definition safe_tools : list string :=
  [ "bash"; "str_replace_editor"; "read"; "write"; "list_directory";
    "create_directory"; "move_file"; "search_files"; "get_file_info" ].

Definition yolo_tools : list string :=
  [ "bash"; "str_replace_editor"; "read"; "write"; "list_directory";
    "create_directory"; "move_file"; "search_files"; "get_file_info";
    "delete_file"; "copy_file"; "run_command"; "execute_shell" ].

Definition instance1_path : string :=
  "/Users/deankeesey/Workspace/tools/mcp/enhanced-iterm-mcp-instance-1".
Definition instance2_path : string :=
  "/Users/deankeesey/Workspace/tools/mcp/enhanced-iterm-mcp-instance-2".

Definition instance_paths : list string := [instance1_path; instance2_path].

(** A Python list of strings as a JSON value.  Both records of a run
    refer to the same list object; it is never mutated afterwards and
    [json.dump] writes it out once per record. *)
Definition tool_list (tools : list string) : json := JArr (JStr <$> tools).

(** The record [setup-auto-approval.py] creates for a missing path. *)
Definition new_record : json :=
  JObj (list_to_map
    [ ("allowedTools", tool_list safe_tools);
      ("history", JArr []);
      ("dontCrawlDirectory", JBool false);
      ("mcpContextUris", JArr []);
      ("mcpServers", JObj ∅);
      ("enabledMcpjsonServers", JArr []);
      ("disabledMcpjsonServers", JArr []);
      ("enableAllProjectMcpServers", JBool false);
      ("hasTrustDialogAccepted", JBool true);
      ("ignorePatterns", JArr []);
      ("projectOnboardingSeenCount", JInt 0);
      ("hasClaudeMdExternalIncludesApproved", JBool true);
      ("hasClaudeMdExternalIncludesWarningShown", JBool true) ]).

(** ** The update loops *)

(** [config["projects"][path][field] = v] *)
Definition set_project_field (config : json) (path field : string) (v : json)
  : outcome json :=
  update_at config "projects" (λ projects,
    update_at projects path (λ record, setitem record field v)).

(** Body of the loop of [setup-auto-approval.py]. *)
Definition auto_approval_step (config : json) (path : string) : outcome json :=
  projects ← getitem config "projects";
  present ← contains projects path;
  if negb present then
    update_at config "projects" (λ projects, setitem projects path new_record)
  else
    config ← set_project_field config path "allowedTools" (tool_list safe_tools);
    config ← set_project_field config path "hasTrustDialogAccepted" (JBool true);
    set_project_field config path "hasClaudeMdExternalIncludesApproved" (JBool true).

Definition auto_approval_loop (config : json) : outcome json :=
  for_each auto_approval_step instance_paths config.

(** Body of the loop of [setup-yolo-mode.py]. *)
Definition yolo_step (config : json) (path : string) : outcome json :=
  projects ← getitem config "projects";
  present ← contains projects path;
  if (present : bool) then
    config ← set_project_field config path "allowedTools" (tool_list yolo_tools);
    config ← set_project_field config path "hasTrustDialogAccepted" (JBool true);
    config ← set_project_field config path "hasClaudeMdExternalIncludesApproved" (JBool true);
    config ← set_project_field config path "autoApproveAllTools" (JBool true);
    set_project_field config path "yoloMode" (JBool true)
  else
    Done config.

Definition yolo_loop (config : json) : outcome json :=
  for_each yolo_step instance_paths config.

(** The two scripts. *)
Inductive script : Type := AutoApproval | YoloMode.

Definition update_loop (s : script) : json → outcome json :=
  match s with
  | AutoApproval => auto_approval_loop
  | YoloMode => yolo_loop
  end.

Definition tools_of (s : script) : list string :=
  match s with
  | AutoApproval => safe_tools
  | YoloMode => yolo_tools
  end.

(** Documents on which the loops run through.  With [projects] a [dict],
    each instance path has to be missing from it or bound to a [dict].
    [setup-yolo-mode.py] also runs through when [projects] is a [list] or a
    [str] in which [path in projects] is false for both paths: its loop
    body is skipped. *)
Definition record_ok (projects : gmap string json) (path : string) : bool :=
  match projects !! path with
  | None | Some (JObj _) => true
  | Some _ => false
  end.

Definition skipped (projects : json) (path : string) : bool :=
  match contains projects path with
  | Done false => true
  | _ => false
  end.


(** What the [else] branch of [setup-auto-approval.py] makes of a record
    and what the [if] branch of [setup-yolo-mode.py] makes of one. *)
Definition approve (tools : list string) (record : gmap string json)
  : gmap string json :=
  <["hasClaudeMdExternalIncludesApproved" := JBool true]>
    (<["hasTrustDialogAccepted" := JBool true]>
      (<["allowedTools" := tool_list tools]> record)).

(** The fields the standard script assigns in an existing record. *)
Definition approval_fields : list string :=
  ["allowedTools"; "hasTrustDialogAccepted"; "hasClaudeMdExternalIncludesApproved"].

Definition yolo (record : gmap string json) : gmap string json :=
  <["yoloMode" := JBool true]>
    (<["autoApproveAllTools" := JBool true]> (approve yolo_tools record)).

(** ** The scripts on a file system *)

(** A file system is a finite map from path names to file contents: only
    regular files, readable and writable. *)
Abbreviation files := (gmap string string).

Definition io (A : Type) : Type := files → files * outcome A.

#[global] Instance io_ret : MRet io := λ A a fs, (fs, Done a).
#[global] Instance io_bind : MBind io := λ A B f c fs,
  match c fs with
  | (fs', Done a) => f a fs'
  | (fs', Raised e) => (fs', Raised e)
  end.

Definition lift {A} (c : outcome A) : io A := λ fs, (fs, c).

(** What the scripts take from their platform: the home directory that
    [os.path.expanduser] substitutes for [~], and Python's [json] module,
    [json.load] ([None] when it raises [JSONDecodeError]) and [json.dump]
    with [indent=2]. *)
Record platform : Type := Platform {
  home : string;
  json_load : string → option json;
  json_dump : json → string
}.

(** [os.path.expanduser] on the paths the scripts pass: a leading [~]
    followed by [/] becomes the home directory. *)
Definition expanduser (P : platform) (path : string) : string :=
  match path with
  | String "~"%char (String "/"%char _ as rest) => home P +:+ rest
  | _ => path
  end.

(** [with open(path, 'r') as f: json.load(f)] *)
Definition load (P : platform) (path : string) : io json := λ fs,
  match fs !! path with
  | None => (fs, Raised FileNotFoundError)
  | Some text =>
      match json_load P text with
      | None => (fs, Raised JSONDecodeError)
      | Some config => (fs, Done config)
      end
  end.

(** [with open(path, 'w') as f: json.dump(config, f, indent=2)] *)
Definition dump (P : platform) (config : json) (path : string) : io () := λ fs,
  (<[path := json_dump P config]> fs, Done ()).

(** The shell splits a command line into words at blanks.  Quoting,
    expansion and the other special characters of [sh] are not modelled. *)
Definition is_blank (c : ascii) : bool := Ascii.eqb c " "%char.

Fixpoint split_words (word rest : string) : list string :=
  match rest with
  | EmptyString => match word with EmptyString => [] | _ => [word] end
  | String c rest' =>
      if is_blank c then
        match word with
        | EmptyString => split_words "" rest'
        | _ => word :: split_words "" rest'
        end
      else split_words (word +:+ String c "") rest'
  end.

Definition sh_words (command : string) : list string := split_words "" command.

Fixpoint blank_free (s : string) : bool :=
  match s with
  | EmptyString => true
  | String c s' => negb (is_blank c) && blank_free s'
  end.

(** [cp source target] with two operands copies a regular file, replacing
    the target; any other operand list fails here, for want of a target
    directory.  The result is the exit status. *)
Definition cp (operands : list string) : files → files * Z := λ fs,
  match operands with
  | [source; target] =>
      match fs !! source with
      | Some text => (<[target := text]> fs, 0)
      | None => (fs, 1)
      end
  | _ => (fs, 1)
  end.

(** [os.system(command)]: runs the command and returns its wait status,
    the exit status times 256; it raises nothing.  [cp] is the one program
    the scripts call. *)
Definition os_system (command : string) : io Z := λ fs,
  match sh_words command with
  | "cp" :: operands =>
      let '(fs', status) := cp operands fs in (fs', Done (256 * status))
  | _ => (fs, Done (256 * 127))
  end.

Definition backup_suffix (s : script) : string :=
  match s with
  | AutoApproval => ".backup"
  | YoloMode => ".yolo-backup"
  end.

Section Scripts.
Variable P : platform.

Definition config_path : string := expanduser P "~/.claude.json".

(** [setup-auto-approval.py]; the status of [os.system] is dropped, and
    the closing [print] calls touch no file. *)
Definition setup_auto_approval : io () :=
  config ← load P config_path;
  config ← lift (auto_approval_loop config);
  _ ← os_system ("cp " +:+ config_path +:+ " " +:+ config_path +:+ ".backup");
  dump P config config_path.

(** [setup-yolo-mode.py] *)
Definition setup_yolo_mode : io () :=
  config ← load P config_path;
  config ← lift (yolo_loop config);
  _ ← os_system ("cp " +:+ config_path +:+ " " +:+ config_path +:+ ".yolo-backup");
  dump P config config_path.

Definition run (s : script) : io () :=
  match s with
  | AutoApproval => setup_auto_approval
  | YoloMode => setup_yolo_mode
  end.

Definition backup_path (s : script) : string :=
  config_path +:+ backup_suffix s.
End Scripts.

(** Home directories made of letters, digits and [/ . _ -] only: the
    shell leaves such a path alone. *)
Definition plain_char (c : ascii) : bool :=
  let n := nat_of_ascii c in
  ((48 <=? n) && (n <=? 57) || (65 <=? n) && (n <=? 90) ||
   (97 <=? n) && (n <=? 122) || (45 <=? n) && (n <=? 47) || (n =? 95))%nat.

Fixpoint plain (s : string) : bool :=
  match s with
  | EmptyString => true
  | String c s' => plain_char c && plain s'
  end.

(** What one iteration of each loop makes of the [projects] mapping, when
    it runs through. *)
Definition ensure (path : string) (projects : gmap string json)
  : gmap string json :=
  match projects !! path with
  | Some (JObj record) => <[path := JObj (approve safe_tools record)]> projects
  | _ => <[path := new_record]> projects
  end.

Definition boost (path : string) (projects : gmap string json)
  : gmap string json :=
  match projects !! path with
  | Some (JObj record) => <[path := JObj (yolo record)]> projects
  | _ => projects
  end.

(** ** Reading a document *)

(** [config["projects"][path]] is there. *)
Definition has_record (config : json) (path : string) : Prop :=
  ∃ top projects,
    config = JObj top ∧ top !! "projects" = Some (JObj projects) ∧
    is_Some (projects !! path).

(** [config["projects"][path]] is a record whose [allowedTools] is the
    list of script [s] and whose two trust flags are set. *)
Definition record_approved (s : script) (config : json) (path : string) : Prop :=
  ∃ top projects record,
    config = JObj top ∧ top !! "projects" = Some (JObj projects) ∧
    projects !! path = Some (JObj record) ∧
    record !! "allowedTools" = Some (tool_list (tools_of s)) ∧
    record !! "hasTrustDialogAccepted" = Some (JBool true) ∧
    record !! "hasClaudeMdExternalIncludesApproved" = Some (JBool true).

Definition field (record : json) (name : string) : option json :=
  match record with
  | JObj fields => fields !! name
  | _ => None
  end.

(** ** Sample inputs *)

(** A platform for running the scripts on examples: [json.load] is known
    on a finite table of texts, every other text being no JSON. *)
Definition table_platform (home_dir : string) (texts : gmap string json)
    (printer : json → string) : platform :=
  Platform home_dir (λ text, texts !! text) printer.

(** [{"projects": {}}] *)
Definition empty_projects : json := JObj {[ "projects" := JObj ∅ ]}.

(** A record left by an earlier session, with some history. *)
Definition used_record : gmap string json :=
  list_to_map
    [ ("allowedTools", tool_list ["read"]);
      ("history", JArr [JStr "ls"]);
      ("hasTrustDialogAccepted", JBool false);
      ("projectOnboardingSeenCount", JInt 3) ].

(** A document with a record for the first instance path only, and one
    with records for both, the second already in YOLO mode. *)
Definition one_project : json :=
  JObj {[ "projects" := JObj {[ instance1_path := JObj used_record ]} ]}.

Definition both_projects : json :=
  JObj (<["numStartups" := JInt 7]>
    {[ "projects" := JObj (<[instance2_path := JObj (yolo used_record)]>
                            {[ instance1_path := JObj used_record ]}) ]}).

(** The texts of the sample table stand for the JSON texts of these
    documents, and the sample printer writes a document down by its kind. *)
Definition sample_texts : gmap string json :=
  list_to_map
    [ ("{}", JObj ∅);
      ("{projects: {}}", empty_projects);
      ("{projects: {instance-1: used}}", one_project);
      ("{numStartups: 7, projects: {instance-1: used, instance-2: yolo}}",
       both_projects) ].

Definition sample_dump (config : json) : string :=
  match config with
  | JObj _ => "{...}"
  | JArr _ => "[...]"
  | _ => "..."
  end.

Definition sample_platform : platform :=
  table_platform "/Users/deankeesey" sample_texts sample_dump.

(** The same platform for a user whose home directory has a blank in its
    name. *)
Definition blank_platform : platform :=
  table_platform "/Users/dean keesey" sample_texts sample_dump.

Definition sample_files : files :=
  {[ "/Users/deankeesey/.claude.json" := "{projects: {}}" ]}.

Definition blank_files : files :=
  {[ "/Users/dean keesey/.claude.json" := "{projects: {}}" ]}.

(** ** The reports

    Both scripts end with [print] calls.  The standard output is the list
    of the texts printed, one per call, in order; an uncaught exception
    ends the process before the first of them. *)

Definition newline : string := String "010"%char "".

(** The [print] calls of [setup-auto-approval.py]. *)
Definition auto_approval_report (P : platform) : list string :=
  [ "✅ Claude Code auto-approval configured for both worktree instances!";
    "✅ Backup saved to " +:+ config_path P +:+ ".backup";
    newline +:+ "Auto-approved tools:" ]
  ++ ((λ tool, "  ✓ " +:+ tool) <$> safe_tools).

(** The [print] calls of [setup-yolo-mode.py]. *)
Definition yolo_report (P : platform) : list string :=
  [ "🚀 YOLO MODE ACTIVATED!";
    "⚠️  Auto-approving nearly all operations within directory boundaries";
    "💾 Backup saved to " +:+ config_path P +:+ ".yolo-backup";
    newline +:+ "YOLO Auto-approved tools:" ]
  ++ ((λ tool, "  🎯 " +:+ tool) <$> yolo_tools)
  ++ [ newline +:+ "Safety layers still active:";
       "  🛡️  Claude Code directory sandboxing";
       "  🛡️  Git worktree isolation";
       "  🛡️  Git history for rollback";
       "  🛡️  Experimental project scope" ].

Definition report (P : platform) (s : script) : list string :=
  match s with
  | AutoApproval => auto_approval_report P
  | YoloMode => yolo_report P
  end.

(** A whole script: the files it leaves, what it printed and how it
    ended. *)
Definition main (P : platform) (s : script)
  : files → files * list string * outcome () := λ fs,
  match run P s fs with
  | (fs', Done _) => (fs', report P s, Done ())
  | (fs', Raised e) => (fs', [], Raised e)
  end.

(** ** More on documents *)

Definition is_dict (x : json) : bool :=
  match x with
  | JObj _ => true
  | _ => false
  end.

(** The fields the permissive script assigns in an existing record. *)
Definition yolo_fields_assigned : list string :=
  approval_fields ++ ["autoApproveAllTools"; "yoloMode"].

(** [config["projects"][path]] is a record with both YOLO flags set. *)
Definition record_in_yolo_mode (config : json) (path : string) : Prop :=
  ∃ top projects record,
    config = JObj top ∧ top !! "projects" = Some (JObj projects) ∧
    projects !! path = Some (JObj record) ∧
    record !! "autoApproveAllTools" = Some (JBool true) ∧
    record !! "yoloMode" = Some (JBool true).

(** ** More sample inputs *)

(** Documents off the data model: the first instance path bound to
    [null], and [projects] a list. *)
Definition null_record : json :=
  JObj {[ "projects" := JObj {[ instance1_path := JNull ]} ]}.

Definition listed_projects : json :=
  JObj {[ "projects" := JArr [JStr "/tmp/elsewhere"] ]}.

(** What [setup-auto-approval.py] makes of [{"projects": {}}]. *)
Definition fresh_projects : json :=
  JObj {[ "projects" := JObj (<[instance2_path := new_record]>
                            {[ instance1_path := new_record ]}) ]}.

Definition edge_texts : gmap string json :=
  list_to_map
    [ ("[]", JArr []);
      ("{projects: {}}", empty_projects);
      ("{projects: {instance-1: null}}", null_record);
      ("{projects: [/tmp/elsewhere]}", listed_projects);
      ("{projects: {instance-1: fresh, instance-2: fresh}}", fresh_projects) ].

(** A printer that knows the text of the freshly patched document. *)
Definition edge_dump (config : json) : string :=
  match config with
  | JObj _ => "{projects: {instance-1: fresh, instance-2: fresh}}"
  | _ => "..."
  end.

Definition edge_platform : platform :=
  table_platform "/Users/deankeesey" edge_texts edge_dump.

Definition edge_files (text : string) : files :=
  {[ "/Users/deankeesey/.claude.json" := text ]}.

(** * Properties *)

(** ** The exception monad *)

Lemma bind_Done {A B} (a : A) (f : A → outcome B) : (Done a ≫= f) = f a.
Proof. reflexivity. Qed.

Lemma pair_of_snd {A B} (p : A * B) (b : B) : p.2 = b → p = (p.1, b).
Proof. destruct p as [a b']. cbn. by intros ->. Qed.

(** ** Assignments below [config["projects"]] *)

Lemma instance_paths_differ : instance1_path ≠ instance2_path.
Proof. discriminate. Qed.

Section Steps.
Variables (top projects : gmap string json).
Hypothesis Hprojects : top !! "projects" = Some (JObj projects).

Lemma set_projects_entry path v :
  update_at (JObj top) "projects" (λ ps, setitem ps path v)
  = Done (JObj (<["projects" := JObj (<[path := v]> projects)]> top)).
Proof using Hprojects.
  unfold update_at, getitem. rewrite Hprojects. reflexivity.
Qed.

Lemma set_project_field_object path record field v :
  projects !! path = Some (JObj record) →
  set_project_field (JObj top) path field v
  = Done (JObj (<["projects" :=
                   JObj (<[path := JObj (<[field := v]> record)]> projects)]> top)).
Proof using Hprojects.
  intros Hrec. unfold set_project_field, update_at, getitem.
  rewrite Hprojects. simpl. rewrite Hrec. reflexivity.
Qed.

Lemma set_project_field_not_object path x field v :
  projects !! path = Some x →
  (∀ record, x ≠ JObj record) →
  set_project_field (JObj top) path field v = Raised TypeError.
Proof using Hprojects.
  intros Hx Hno. unfold set_project_field, update_at, getitem.
  rewrite Hprojects. simpl. rewrite Hx.
  destruct x; try reflexivity. by destruct (Hno fields).
Qed.
End Steps.

(** ** One iteration of each loop *)

Section Iteration.
Variables (top projects : gmap string json).
Hypothesis Hprojects : top !! "projects" = Some (JObj projects).

Lemma auto_approval_step_object path :
  auto_approval_step (JObj top) path
  = if record_ok projects path
    then Done (JObj (<["projects" := JObj (ensure path projects)]> top))
    else Raised TypeError.
Proof using Hprojects.
  unfold auto_approval_step, getitem. rewrite Hprojects, bind_Done.
  unfold contains, record_ok, ensure. rewrite bind_Done.
  destruct (projects !! path) as [x|] eqn:Hx.
  - rewrite bool_decide_eq_true_2 by eauto. simpl negb. cbv iota.
    destruct x;
      try (erewrite set_project_field_not_object by (done || eauto); done).
    erewrite set_project_field_object by done. rewrite bind_Done.
    erewrite set_project_field_object; [| apply lookup_insert_eq | apply lookup_insert_eq].
    rewrite bind_Done.
    erewrite set_project_field_object; [| apply lookup_insert_eq | apply lookup_insert_eq].
    by rewrite !insert_insert_eq.
  - rewrite bool_decide_eq_false_2 by (intros [? ?]; done). simpl negb. cbv iota.
    by apply set_projects_entry.
Qed.

Lemma yolo_step_object path :
  yolo_step (JObj top) path
  = if record_ok projects path
    then Done (JObj (<["projects" := JObj (boost path projects)]> top))
    else Raised TypeError.
Proof using Hprojects.
  unfold yolo_step, getitem. rewrite Hprojects, bind_Done.
  unfold contains, record_ok, boost. rewrite bind_Done.
  destruct (projects !! path) as [x|] eqn:Hx.
  - rewrite bool_decide_eq_true_2 by eauto. cbv iota.
    destruct x;
      try (erewrite set_project_field_not_object by (done || eauto); done).
    erewrite set_project_field_object by done. rewrite bind_Done.
    do 3 (erewrite set_project_field_object;
            [| apply lookup_insert_eq | apply lookup_insert_eq];
          rewrite bind_Done).
    erewrite set_project_field_object; [| apply lookup_insert_eq | apply lookup_insert_eq].
    by rewrite !insert_insert_eq.
  - rewrite bool_decide_eq_false_2 by (intros [? ?]; done). cbv iota.
    by rewrite insert_id.
Qed.
End Iteration.

Lemma record_ok_ensure path path' projects :
  path ≠ path' → record_ok (ensure path projects) path' = record_ok projects path'.
Proof.
  intros Hne. unfold record_ok, ensure.
  destruct (projects !! path) as [[]|]; by rewrite lookup_insert_ne.
Qed.

Lemma record_ok_boost path path' projects :
  path ≠ path' → record_ok (boost path projects) path' = record_ok projects path'.
Proof.
  intros Hne. unfold record_ok, boost.
  destruct (projects !! path) as [[]|]; try done. by rewrite lookup_insert_ne.
Qed.

(** [setup-auto-approval.py] fails in its first iteration when
    [config["projects"]] cannot be evaluated or is no [dict]. *)
Lemma auto_approval_step_fails config path :
  (∀ top projects, config = JObj top → top !! "projects" ≠ Some (JObj projects)) →
  ∃ e, auto_approval_step config path = Raised e.
Proof.
  intros Hno.
  destruct config as [| | | | | |top]; try by exists TypeError.
  unfold auto_approval_step, getitem.
  destruct (top !! "projects") as [x|] eqn:Hx; [| by exists (KeyError "projects")].
  exists TypeError. rewrite bind_Done.
  destruct x as [| | | | s0 |items|ps]; try reflexivity.
  - unfold contains. rewrite bind_Done.
    destruct (negb _); unfold set_project_field, update_at, getitem; by rewrite Hx.
  - unfold contains. rewrite bind_Done.
    destruct (negb _); unfold set_project_field, update_at, getitem; by rewrite Hx.
  - by destruct (Hno top ps).
Qed.

(** [setup-yolo-mode.py] with a [projects] that is no [dict]: the
    iteration is skipped when [path in projects] is false. *)
Lemma yolo_step_not_object top x path :
  top !! "projects" = Some x →
  (∀ projects, x ≠ JObj projects) →
  yolo_step (JObj top) path
  = if skipped x path then Done (JObj top)
    else Raised TypeError.
Proof.
  intros Hx Hno. unfold yolo_step, skipped, getitem. rewrite Hx, bind_Done.
  destruct x as [| | | | s0 |items|ps]; try reflexivity.
  - unfold contains. rewrite bind_Done.
    destruct (bool_decide _); [| reflexivity].
    unfold set_project_field, update_at, getitem; by rewrite Hx.
  - unfold contains. rewrite bind_Done.
    destruct (existsb _ _); [| reflexivity].
    unfold set_project_field, update_at, getitem; by rewrite Hx.
  - by destruct (Hno ps).
Qed.

Lemma yolo_step_fails config path :
  (∀ top, config = JObj top → top !! "projects" = None) →
  ∃ e, yolo_step config path = Raised e.
Proof.
  intros Hno.
  destruct config as [| | | | | |top]; try by exists TypeError.
  exists (KeyError "projects"). unfold yolo_step, getitem. by rewrite (Hno top).
Qed.

(** ** The loops *)

Section Loops.
Variables (top projects : gmap string json).
Hypothesis Hprojects : top !! "projects" = Some (JObj projects).

Lemma auto_approval_loop_object :
  auto_approval_loop (JObj top)
  = if forallb (record_ok projects) instance_paths
    then Done (JObj (<["projects" :=
           JObj (ensure instance2_path (ensure instance1_path projects))]> top))
    else Raised TypeError.
Proof using Hprojects.
  unfold auto_approval_loop, instance_paths. cbn [for_each forallb].
  rewrite (auto_approval_step_object top projects Hprojects).
  destruct (record_ok projects instance1_path); [| reflexivity].
  rewrite bind_Done.
  erewrite auto_approval_step_object by apply lookup_insert_eq.
  rewrite record_ok_ensure by apply instance_paths_differ.
  destruct (record_ok projects instance2_path); [| reflexivity].
  by rewrite bind_Done, insert_insert_eq.
Qed.

Lemma yolo_loop_object :
  yolo_loop (JObj top)
  = if forallb (record_ok projects) instance_paths
    then Done (JObj (<["projects" :=
           JObj (boost instance2_path (boost instance1_path projects))]> top))
    else Raised TypeError.
Proof using Hprojects.
  unfold yolo_loop, instance_paths. cbn [for_each forallb].
  rewrite (yolo_step_object top projects Hprojects).
  destruct (record_ok projects instance1_path); [| reflexivity].
  rewrite bind_Done.
  erewrite yolo_step_object by apply lookup_insert_eq.
  rewrite record_ok_boost by apply instance_paths_differ.
  destruct (record_ok projects instance2_path); [| reflexivity].
  by rewrite bind_Done, insert_insert_eq.
Qed.
End Loops.

Lemma yolo_loop_not_object top x :
  top !! "projects" = Some x →
  (∀ projects, x ≠ JObj projects) →
  yolo_loop (JObj top)
  = if forallb (skipped x) instance_paths then Done (JObj top)
    else Raised TypeError.
Proof.
  intros Hx Hno. unfold yolo_loop, instance_paths. cbn [for_each forallb].
  rewrite (yolo_step_not_object top x _ Hx Hno).
  destruct (skipped x instance1_path); [| reflexivity].
  rewrite bind_Done, (yolo_step_not_object top x _ Hx Hno).
  by destruct (skipped x instance2_path).
Qed.

Lemma auto_approval_loop_fails config :
  (∀ top projects, config = JObj top → top !! "projects" ≠ Some (JObj projects)) →
  ∃ e, auto_approval_loop config = Raised e.
Proof.
  intros Hno. destruct (auto_approval_step_fails config instance1_path Hno) as [e He].
  exists e. unfold auto_approval_loop, instance_paths. cbn [for_each]. by rewrite He.
Qed.

Lemma yolo_loop_fails config :
  (∀ top, config = JObj top → top !! "projects" = None) →
  ∃ e, yolo_loop config = Raised e.
Proof.
  intros Hno. destruct (yolo_step_fails config instance1_path Hno) as [e He].
  exists e. unfold yolo_loop, instance_paths. cbn [for_each]. by rewrite He.
Qed.


(** ** Records *)

Lemma approve_fields tools record :
  approve tools record !! "allowedTools" = Some (tool_list tools) ∧
  approve tools record !! "hasTrustDialogAccepted" = Some (JBool true) ∧
  approve tools record !! "hasClaudeMdExternalIncludesApproved" = Some (JBool true).
Proof. unfold approve. by rewrite !lookup_insert. Qed.

Lemma approve_other tools record name :
  name ∉ approval_fields → approve tools record !! name = record !! name.
Proof.
  intros Hname. unfold approve.
  rewrite !lookup_insert_ne; [done | ..]; intros <-; apply Hname;
    unfold approval_fields; set_solver.
Qed.

Lemma approve_twice tools record :
  approve tools (approve tools record) = approve tools record.
Proof.
  apply map_eq; intros name. unfold approve.
  rewrite !lookup_insert. by repeat case_decide.
Qed.

(** The record created for a missing path already has what [approve]
    sets. *)
Lemma approve_new_record :
  ∃ fields, new_record = JObj fields ∧ approve safe_tools fields = fields.
Proof.
  eexists. split; [reflexivity |]. unfold approve.
  rewrite !insert_id; [done | by vm_compute ..].
Qed.

Lemma ensure_lookup_ne path path' projects :
  path ≠ path' → ensure path projects !! path' = projects !! path'.
Proof.
  intros Hne. unfold ensure.
  destruct (projects !! path) as [[]|]; by rewrite lookup_insert_ne.
Qed.

Lemma boost_lookup_ne path path' projects :
  path ≠ path' → boost path projects !! path' = projects !! path'.
Proof.
  intros Hne. unfold boost.
  destruct (projects !! path) as [[]|]; try done. by rewrite lookup_insert_ne.
Qed.

Lemma ensure_missing path projects :
  projects !! path = None → ensure path projects = <[path := new_record]> projects.
Proof. intros H. unfold ensure. by rewrite H. Qed.

Lemma ensure_record path projects record :
  projects !! path = Some (JObj record) →
  ensure path projects = <[path := JObj (approve safe_tools record)]> projects.
Proof. intros H. unfold ensure. by rewrite H. Qed.

Lemma ensure_twice path projects :
  record_ok projects path = true →
  ensure path (ensure path projects) = ensure path projects.
Proof.
  unfold record_ok. intros Hok.
  destruct (projects !! path) as [x|] eqn:Hx.
  - destruct x; try discriminate.
    rewrite (ensure_record _ _ _ Hx).
    erewrite ensure_record by apply lookup_insert_eq.
    by rewrite insert_insert_eq, approve_twice.
  - rewrite (ensure_missing _ _ Hx).
    destruct approve_new_record as (fields & Hnew & Hfix).
    rewrite Hnew. erewrite ensure_record by apply lookup_insert_eq.
    by rewrite insert_insert_eq, Hfix.
Qed.

Lemma instance_path_cases path :
  path ∈ instance_paths ↔ path = instance1_path ∨ path = instance2_path.
Proof. unfold instance_paths. rewrite !elem_of_cons, elem_of_nil. tauto. Qed.

Lemma record_ok_all projects :
  forallb (record_ok projects) instance_paths = true ↔
  record_ok projects instance1_path = true ∧ record_ok projects instance2_path = true.
Proof.
  unfold instance_paths. cbn [forallb].
  rewrite !andb_true_iff. tauto.
Qed.

Lemma record_ok_present projects path record :
  projects !! path = Some (JObj record) → record_ok projects path = true.
Proof. intros H. unfold record_ok. by rewrite H. Qed.

Lemma record_ok_missing projects path :
  projects !! path = None → record_ok projects path = true.
Proof. intros H. unfold record_ok. by rewrite H. Qed.

(** ** The standard script on documents *)

(** C2: on a document whose [projects] mapping has neither instance path,
    the loop of [setup-auto-approval.py] runs through and binds both paths
    to the fresh record: [allowedTools] is the list of the nine safe tools,
    the two trust flags are true and the other fields have their fixed
    defaults (empty lists and mapping, [False] switches, counter 0).  The
    keys of [projects] are the two paths and the keys it had; on
    [{"projects": {}}] they are exactly the two paths. *)
Theorem auto_approval_creates_records top projects :
  top !! "projects" = Some (JObj projects) →
  projects !! instance1_path = None →
  projects !! instance2_path = None →
  ∃ top' projects',
    auto_approval_loop (JObj top) = Done (JObj top') ∧
    top' !! "projects" = Some (JObj projects') ∧
    dom projects' = {[instance1_path; instance2_path]} ∪ dom projects ∧
    (∀ path, path ∈ instance_paths → projects' !! path = Some new_record) ∧
    (top = {[ "projects" := JObj ∅ ]} →
       top' = {[ "projects" := JObj projects' ]} ∧
       dom projects' = {[instance1_path; instance2_path]}) ∧
    field new_record "allowedTools" = Some (tool_list safe_tools) ∧
    length safe_tools = 9%nat ∧
    field new_record "hasTrustDialogAccepted" = Some (JBool true) ∧
    field new_record "hasClaudeMdExternalIncludesApproved" = Some (JBool true) ∧
    field new_record "hasClaudeMdExternalIncludesWarningShown" = Some (JBool true) ∧
    field new_record "history" = Some (JArr []) ∧
    field new_record "ignorePatterns" = Some (JArr []) ∧
    field new_record "mcpContextUris" = Some (JArr []) ∧
    field new_record "enabledMcpjsonServers" = Some (JArr []) ∧
    field new_record "disabledMcpjsonServers" = Some (JArr []) ∧
    field new_record "mcpServers" = Some (JObj ∅) ∧
    field new_record "dontCrawlDirectory" = Some (JBool false) ∧
    field new_record "enableAllProjectMcpServers" = Some (JBool false) ∧
    field new_record "projectOnboardingSeenCount" = Some (JInt 0).
Proof.
  intros Hprojects H1 H2.
  exists (<["projects" :=
            JObj (ensure instance2_path (ensure instance1_path projects))]> top),
         (ensure instance2_path (ensure instance1_path projects)).
  assert (Hdom : dom (ensure instance2_path (ensure instance1_path projects))
                 = {[instance1_path; instance2_path]} ∪ dom projects).
  { rewrite (ensure_missing instance1_path) by done.
    rewrite ensure_missing by (by rewrite lookup_insert_ne by apply instance_paths_differ).
    rewrite !dom_insert_L. set_solver. }
  split; [| split; [| split; [| split; [| split]]]].
  - rewrite (auto_approval_loop_object top projects Hprojects).
    rewrite (proj2 (record_ok_all projects)); [done |].
    split; by apply record_ok_missing.
  - apply lookup_insert_eq.
  - exact Hdom.
  - intros path [-> | ->]%instance_path_cases.
    + rewrite ensure_lookup_ne by apply not_eq_sym, instance_paths_differ.
      rewrite ensure_missing by done. apply lookup_insert_eq.
    + rewrite ensure_missing; [apply lookup_insert_eq |].
      by rewrite ensure_lookup_ne by apply instance_paths_differ.
  - intros ->. rewrite insert_singleton_eq. split; [done |].
    apply lookup_singleton_Some in Hprojects as [_ [= <-]].
    rewrite Hdom, dom_empty_L. apply (right_id_L ∅ (∪)).
  - repeat split; vm_compute; reflexivity.
Qed.

Lemma auto_approval_creates_records_witness :
  ∃ top' projects',
    auto_approval_loop empty_projects = Done (JObj top') ∧
    top' !! "projects" = Some (JObj projects') ∧
    dom projects' = {[instance1_path; instance2_path]} ∪ dom (∅ : gmap string json).
Proof.
  destruct (auto_approval_creates_records {[ "projects" := JObj ∅ ]} ∅)
    as (top' & projects' & Hrun & Hget & Hdom & _);
    [reflexivity | reflexivity | reflexivity |].
  exists top', projects'. split_and!; assumption.
Defined.

(** The loop of the standard script on a document whose instance records,
    where present, are mappings. *)
Lemma auto_approval_loop_runs top projects :
  top !! "projects" = Some (JObj projects) →
  forallb (record_ok projects) instance_paths = true →
  auto_approval_loop (JObj top)
  = Done (JObj (<["projects" :=
        JObj (ensure instance2_path (ensure instance1_path projects))]> top)).
Proof.
  intros Hprojects Hok.
  by rewrite (auto_approval_loop_object top projects Hprojects), Hok.
Qed.

Lemma ensure_instances_lookup projects path record :
  path ∈ instance_paths →
  projects !! path = Some (JObj record) →
  ensure instance2_path (ensure instance1_path projects) !! path
  = Some (JObj (approve safe_tools record)).
Proof.
  intros [-> | ->]%instance_path_cases Hrec.
  - rewrite ensure_lookup_ne by apply not_eq_sym, instance_paths_differ.
    rewrite (ensure_record _ _ _ Hrec). apply lookup_insert_eq.
  - erewrite (ensure_record instance2_path); [apply lookup_insert_eq |].
    by rewrite ensure_lookup_ne by apply instance_paths_differ.
Qed.

Lemma ensure_instances_other projects path :
  path ∉ instance_paths →
  ensure instance2_path (ensure instance1_path projects) !! path = projects !! path.
Proof.
  rewrite instance_path_cases. intros Hno.
  rewrite !ensure_lookup_ne; [done | ..]; intros <-; tauto.
Qed.

(** C4: where an instance path already has a record, the loop of
    [setup-auto-approval.py] changes in that record the fields
    [allowedTools], [hasTrustDialogAccepted] and
    [hasClaudeMdExternalIncludesApproved] only; the record's other fields,
    the entries of [projects] at other paths than the two instance paths
    and the other top-level keys of the document are as before. *)
Theorem auto_approval_frame top projects path record :
  top !! "projects" = Some (JObj projects) →
  forallb (record_ok projects) instance_paths = true →
  path ∈ instance_paths →
  projects !! path = Some (JObj record) →
  ∃ top' projects' record',
    auto_approval_loop (JObj top) = Done (JObj top') ∧
    top' !! "projects" = Some (JObj projects') ∧
    projects' !! path = Some (JObj record') ∧
    (∀ name, name ∉ approval_fields → record' !! name = record !! name) ∧
    (∀ other, other ∉ instance_paths → projects' !! other = projects !! other) ∧
    (∀ key, key ≠ "projects" → top' !! key = top !! key).
Proof.
  intros Hprojects Hok Hpath Hrec.
  eexists _, _, _. split; [by apply auto_approval_loop_runs |].
  split; [apply lookup_insert_eq |].
  split; [by apply ensure_instances_lookup |].
  split; [intros name; apply approve_other |].
  split; [apply ensure_instances_other |].
  intros key Hkey. by rewrite lookup_insert_ne.
Qed.

Lemma auto_approval_frame_witness :
  ∃ top' projects' record',
    auto_approval_loop both_projects = Done (JObj top') ∧
    top' !! "projects" = Some (JObj projects') ∧
    projects' !! instance1_path = Some (JObj record') ∧
    record' !! "history" = Some (JArr [JStr "ls"]) ∧
    top' !! "numStartups" = Some (JInt 7).
Proof.
  destruct (auto_approval_frame
              (<["numStartups" := JInt 7]>
                 {[ "projects" := JObj (<[instance2_path := JObj (yolo used_record)]>
                                          {[ instance1_path := JObj used_record ]}) ]})
              (<[instance2_path := JObj (yolo used_record)]>
                 {[ instance1_path := JObj used_record ]})
              instance1_path used_record)
    as (top' & projects' & record' & Hrun & Hget & Hrec & Hfields & _ & Htop).
  - reflexivity.
  - reflexivity.
  - apply instance_path_cases. left. reflexivity.
  - reflexivity.
  - exists top', projects', record'.
    split; [exact Hrun |]. split; [exact Hget |]. split; [exact Hrec |].
    split.
    + rewrite Hfields; [reflexivity |].
      unfold approval_fields. rewrite !elem_of_cons, elem_of_nil.
      intros [H | [H | [H | []]]]; discriminate H.
    + rewrite Htop; [reflexivity | discriminate].
Defined.

(** C10: the loop of [setup-auto-approval.py] on a record that
    [setup-yolo-mode.py] left with [autoApproveAllTools] and [yoloMode]
    true sets [allowedTools] to the nine safe tools and leaves both flags
    true. *)
Theorem auto_approval_keeps_yolo_flags top projects path record :
  top !! "projects" = Some (JObj projects) →
  forallb (record_ok projects) instance_paths = true →
  path ∈ instance_paths →
  projects !! path = Some (JObj record) →
  record !! "autoApproveAllTools" = Some (JBool true) →
  record !! "yoloMode" = Some (JBool true) →
  ∃ top' projects' record',
    auto_approval_loop (JObj top) = Done (JObj top') ∧
    top' !! "projects" = Some (JObj projects') ∧
    projects' !! path = Some (JObj record') ∧
    record' !! "allowedTools" = Some (tool_list safe_tools) ∧
    length safe_tools = 9%nat ∧
    record' !! "autoApproveAllTools" = Some (JBool true) ∧
    record' !! "yoloMode" = Some (JBool true).
Proof.
  intros Hprojects Hok Hpath Hrec Hauto Hyolo.
  eexists _, _, _. split; [by apply auto_approval_loop_runs |].
  split; [apply lookup_insert_eq |].
  split; [by apply ensure_instances_lookup |].
  split; [apply approve_fields |].
  split; [reflexivity |].
  split; (rewrite approve_other; [assumption |]);
    unfold approval_fields; rewrite !elem_of_cons, elem_of_nil;
    intros [H | [H | [H | []]]]; discriminate H.
Qed.

Lemma auto_approval_keeps_yolo_flags_witness :
  ∃ top' projects' record',
    auto_approval_loop both_projects = Done (JObj top') ∧
    top' !! "projects" = Some (JObj projects') ∧
    projects' !! instance2_path = Some (JObj record') ∧
    record' !! "allowedTools" = Some (tool_list safe_tools) ∧
    length safe_tools = 9%nat ∧
    record' !! "autoApproveAllTools" = Some (JBool true) ∧
    record' !! "yoloMode" = Some (JBool true).
Proof.
  apply (auto_approval_keeps_yolo_flags
           (<["numStartups" := JInt 7]>
              {[ "projects" := JObj (<[instance2_path := JObj (yolo used_record)]>
                                       {[ instance1_path := JObj used_record ]}) ]})
           (<[instance2_path := JObj (yolo used_record)]>
              {[ instance1_path := JObj used_record ]})
           instance2_path (yolo used_record)).
  - reflexivity.
  - reflexivity.
  - apply instance_path_cases. right. reflexivity.
  - reflexivity.
  - reflexivity.
  - reflexivity.
Defined.

Lemma ensure_commute projects :
  ensure instance1_path (ensure instance2_path projects)
  = ensure instance2_path (ensure instance1_path projects).
Proof.
  unfold ensure at 1 3.
  rewrite !ensure_lookup_ne
    by (apply instance_paths_differ || apply not_eq_sym, instance_paths_differ).
  unfold ensure.
  destruct (projects !! instance1_path) as [[]|], (projects !! instance2_path) as [[]|];
    apply insert_insert_ne, instance_paths_differ.
Qed.

Lemma record_ok_ensure_same path projects :
  record_ok (ensure path projects) path = true.
Proof.
  unfold record_ok, ensure.
  destruct (projects !! path) as [[]|]; by rewrite lookup_insert_eq.
Qed.

Lemma ensure_instances_twice projects :
  forallb (record_ok projects) instance_paths = true →
  ensure instance2_path (ensure instance1_path
    (ensure instance2_path (ensure instance1_path projects)))
  = ensure instance2_path (ensure instance1_path projects).
Proof.
  intros [Hok1 Hok2]%record_ok_all.
  rewrite ensure_commute, ensure_twice.
  - by rewrite ensure_twice.
  - by rewrite !record_ok_ensure by apply instance_paths_differ.
Qed.

(** C5: the loop of [setup-auto-approval.py] is idempotent.  Run on its
    own result it returns that result; where the first run raises there is
    no result to run on, and the sequence of both raises the same. *)
Theorem auto_approval_idempotent config :
  auto_approval_loop config ≫= auto_approval_loop = auto_approval_loop config.
Proof.
  destruct (auto_approval_loop config) as [config'|e] eqn:Hrun; [| reflexivity].
  rewrite bind_Done.
  destruct config as [| | | | | |top]; try discriminate Hrun.
  destruct (top !! "projects") as [x|] eqn:Hx.
  - destruct x as [| | | | | |projects];
      try (destruct (auto_approval_loop_fails (JObj top)) as [e He];
           [intros ? ? [= <-]; by rewrite Hx | congruence]).
    rewrite (auto_approval_loop_object top projects Hx) in Hrun.
    destruct (forallb _ _) eqn:Hok; [| discriminate Hrun].
    injection Hrun as <-.
    erewrite auto_approval_loop_runs; [| apply lookup_insert_eq |].
    + by rewrite insert_insert_eq, ensure_instances_twice.
    + apply record_ok_all. split.
      * rewrite record_ok_ensure by apply not_eq_sym, instance_paths_differ.
        apply record_ok_ensure_same.
      * apply record_ok_ensure_same.
  - destruct (auto_approval_loop_fails (JObj top)) as [e He];
      [intros ? ? [= <-]; by rewrite Hx | congruence].
Qed.

Lemma auto_approval_loop_inv config config' :
  auto_approval_loop config = Done config' →
  ∃ top projects,
    config = JObj top ∧ top !! "projects" = Some (JObj projects) ∧
    forallb (record_ok projects) instance_paths = true ∧
    config' = JObj (<["projects" :=
                JObj (ensure instance2_path (ensure instance1_path projects))]> top).
Proof.
  intros Hrun.
  destruct config as [| | | | | |top]; try discriminate Hrun.
  destruct (top !! "projects") as [x|] eqn:Hx.
  - destruct x as [| | | | | |projects];
      try (destruct (auto_approval_loop_fails (JObj top)) as [e He];
           [intros ? ? [= <-]; by rewrite Hx | congruence]).
    rewrite (auto_approval_loop_object top projects Hx) in Hrun.
    destruct (forallb _ _) eqn:Hok; [| discriminate Hrun].
    injection Hrun as <-. by exists top, projects.
  - destruct (auto_approval_loop_fails (JObj top)) as [e He];
      [intros ? ? [= <-]; by rewrite Hx | congruence].
Qed.

(** ** The permissive script on documents *)

Lemma yolo_fields record :
  yolo record !! "allowedTools" = Some (tool_list yolo_tools) ∧
  yolo record !! "hasTrustDialogAccepted" = Some (JBool true) ∧
  yolo record !! "hasClaudeMdExternalIncludesApproved" = Some (JBool true) ∧
  yolo record !! "autoApproveAllTools" = Some (JBool true) ∧
  yolo record !! "yoloMode" = Some (JBool true).
Proof. unfold yolo, approve. by rewrite !lookup_insert. Qed.

Lemma boost_missing path projects :
  projects !! path = None → boost path projects = projects.
Proof. intros H. unfold boost. by rewrite H. Qed.

Lemma boost_record path projects record :
  projects !! path = Some (JObj record) →
  boost path projects = <[path := JObj (yolo record)]> projects.
Proof. intros H. unfold boost. by rewrite H. Qed.

Lemma boost_lookup_None path path' projects :
  projects !! path' = None → boost path projects !! path' = None.
Proof.
  intros H. destruct (decide (path = path')) as [-> | Hne].
  - by rewrite boost_missing.
  - by rewrite boost_lookup_ne.
Qed.

Lemma boost_instances_lookup projects path record :
  path ∈ instance_paths →
  projects !! path = Some (JObj record) →
  boost instance2_path (boost instance1_path projects) !! path
  = Some (JObj (yolo record)).
Proof.
  intros [-> | ->]%instance_path_cases Hrec.
  - rewrite boost_lookup_ne by apply not_eq_sym, instance_paths_differ.
    rewrite (boost_record _ _ _ Hrec). apply lookup_insert_eq.
  - erewrite (boost_record instance2_path); [apply lookup_insert_eq |].
    by rewrite boost_lookup_ne by apply instance_paths_differ.
Qed.

Lemma yolo_loop_runs top projects :
  top !! "projects" = Some (JObj projects) →
  forallb (record_ok projects) instance_paths = true →
  yolo_loop (JObj top)
  = Done (JObj (<["projects" :=
        JObj (boost instance2_path (boost instance1_path projects))]> top)).
Proof.
  intros Hprojects Hok.
  by rewrite (yolo_loop_object top projects Hprojects), Hok.
Qed.

(** C3: on a document with a record for one instance path and no entry
    for the other, the loop of [setup-yolo-mode.py] creates no entry for
    the missing path; in the record of the present path it sets
    [allowedTools] to the thirteen YOLO tools and the two trust flags,
    [autoApproveAllTools] and [yoloMode] to true. *)
Theorem yolo_updates_present_only top projects present missing record :
  top !! "projects" = Some (JObj projects) →
  present ∈ instance_paths →
  missing ∈ instance_paths →
  projects !! present = Some (JObj record) →
  projects !! missing = None →
  ∃ top' projects' record',
    yolo_loop (JObj top) = Done (JObj top') ∧
    top' !! "projects" = Some (JObj projects') ∧
    projects' !! missing = None ∧
    projects' !! present = Some (JObj record') ∧
    record' !! "allowedTools" = Some (tool_list yolo_tools) ∧
    length yolo_tools = 13%nat ∧
    record' !! "hasTrustDialogAccepted" = Some (JBool true) ∧
    record' !! "hasClaudeMdExternalIncludesApproved" = Some (JBool true) ∧
    record' !! "autoApproveAllTools" = Some (JBool true) ∧
    record' !! "yoloMode" = Some (JBool true).
Proof.
  intros Hprojects Hpresent Hmissing Hrec Hnone.
  assert (Hok : forallb (record_ok projects) instance_paths = true).
  { apply record_ok_all.
    apply instance_path_cases in Hpresent as [-> | ->];
      apply instance_path_cases in Hmissing as [-> | ->];
      try congruence; split;
      (by eapply record_ok_present) || (by apply record_ok_missing). }
  eexists _, _, _. split; [by apply yolo_loop_runs |].
  split; [apply lookup_insert_eq |].
  split; [by do 2 apply boost_lookup_None |].
  split; [by apply boost_instances_lookup |].
  destruct (yolo_fields record) as (? & ? & ? & ? & ?).
  by repeat split.
Qed.

Lemma yolo_updates_present_only_witness :
  ∃ top' projects' record',
    yolo_loop one_project = Done (JObj top') ∧
    top' !! "projects" = Some (JObj projects') ∧
    projects' !! instance2_path = None ∧
    projects' !! instance1_path = Some (JObj record') ∧
    record' !! "allowedTools" = Some (tool_list yolo_tools) ∧
    length yolo_tools = 13%nat ∧
    record' !! "hasTrustDialogAccepted" = Some (JBool true) ∧
    record' !! "hasClaudeMdExternalIncludesApproved" = Some (JBool true) ∧
    record' !! "autoApproveAllTools" = Some (JBool true) ∧
    record' !! "yoloMode" = Some (JBool true).
Proof.
  apply (yolo_updates_present_only
           {[ "projects" := JObj {[ instance1_path := JObj used_record ]} ]}
           {[ instance1_path := JObj used_record ]}
           instance1_path instance2_path used_record).
  - reflexivity.
  - apply instance_path_cases. left. reflexivity.
  - apply instance_path_cases. right. reflexivity.
  - reflexivity.
  - reflexivity.
Defined.

(** The loop of the permissive script leaves alone a document whose
    [projects] mapping has neither instance path. *)
Lemma yolo_loop_identity top projects :
  top !! "projects" = Some (JObj projects) →
  projects !! instance1_path = None →
  projects !! instance2_path = None →
  yolo_loop (JObj top) = Done (JObj top).
Proof.
  intros Hprojects H1 H2.
  rewrite (yolo_loop_runs top projects Hprojects).
  - by rewrite (boost_missing instance1_path), boost_missing, insert_id.
  - apply record_ok_all. split; by apply record_ok_missing.
Qed.

Lemma yolo_loop_inv config config' :
  yolo_loop config = Done config' →
  ∃ top x,
    config = JObj top ∧ top !! "projects" = Some x ∧
    match x with
    | JObj projects =>
        forallb (record_ok projects) instance_paths = true ∧
        config' = JObj (<["projects" :=
                    JObj (boost instance2_path (boost instance1_path projects))]> top)
    | _ => config' = config
    end.
Proof.
  intros Hrun.
  destruct config as [| | | | | |top]; try discriminate Hrun.
  destruct (top !! "projects") as [x|] eqn:Hx.
  - exists top, x. split; [done |]. split; [done |].
    destruct x as [| | | | | |projects];
      try (rewrite (yolo_loop_not_object top _ Hx) in Hrun by done;
           destruct (forallb _ _); congruence).
    rewrite (yolo_loop_object top projects Hx) in Hrun.
    destruct (forallb _ _); [| discriminate Hrun].
    by injection Hrun as <-.
  - destruct (yolo_loop_fails (JObj top)) as [e He];
      [by intros ? [= <-] | congruence].
Qed.

(** ** The shell's word splitting *)

Lemma append_cons c s t : String c s +:+ t = String c (s +:+ t).
Proof. reflexivity. Qed.

Lemma append_nil_r s : s +:+ "" = s.
Proof. induction s as [|c s IH]; [done |]. by rewrite append_cons, IH. Qed.

Lemma append_assoc s t u : (s +:+ t) +:+ u = s +:+ (t +:+ u).
Proof. induction s as [|c s IH]; [done |]. by rewrite !append_cons, IH. Qed.

Lemma append_empty s t : s +:+ t = "" → s = "" ∧ t = "".
Proof. destruct s; [done |]. rewrite append_cons. discriminate. Qed.

Lemma blank_free_append s t :
  blank_free (s +:+ t) = blank_free s && blank_free t.
Proof.
  induction s as [|c s IH]; [done |].
  rewrite append_cons. cbn [blank_free]. by rewrite IH, andb_assoc.
Qed.

Lemma plain_char_not_blank c : plain_char c = true → is_blank c = false.
Proof. destruct c as [[] [] [] [] [] [] [] []]; by vm_compute. Qed.

Lemma plain_blank_free s : plain s = true → blank_free s = true.
Proof.
  induction s as [|c s IH]; [done |]. cbn [plain blank_free].
  intros [Hc Hs]%andb_true_iff. by rewrite (plain_char_not_blank c Hc), IH.
Qed.

(** A blank-free stretch of the line is read into the current word. *)
Lemma split_words_read w : ∀ word rest,
  blank_free w = true →
  split_words word (w +:+ rest) = split_words (word +:+ w) rest.
Proof.
  induction w as [|c w IH]; intros word rest Hfree.
  - by rewrite append_nil_r.
  - cbn [blank_free] in Hfree. apply andb_true_iff in Hfree as [Hc Hw].
    rewrite append_cons. cbn [split_words].
    apply negb_true_iff in Hc. rewrite Hc, IH by done.
    by rewrite append_assoc.
Qed.

Lemma split_words_blank word rest :
  word ≠ "" →
  split_words word (String " " rest) = word :: split_words "" rest.
Proof. intros Hword. cbn [split_words]. by destruct word. Qed.

Lemma split_words_end word : word ≠ "" → split_words word "" = [word].
Proof. intros Hword. by destruct word. Qed.

(** The command line of the scripts reaches [cp] as two operands when the
    paths have no blank. *)
Lemma sh_words_cp source target :
  blank_free source = true → source ≠ "" →
  blank_free target = true → target ≠ "" →
  sh_words ("cp " +:+ source +:+ " " +:+ target) = ["cp"; source; target].
Proof.
  intros Hs Hs' Ht Ht'. unfold sh_words.
  change ("cp " +:+ source +:+ " " +:+ target)
    with ("cp" +:+ String " " (source +:+ String " " target)).
  rewrite (split_words_read "cp" "") by done.
  change ("" +:+ "cp") with "cp".
  rewrite split_words_blank by done.
  rewrite split_words_read, split_words_blank by done.
  rewrite <- (append_nil_r target) at 1.
  rewrite split_words_read, split_words_end by done.
  reflexivity.
Qed.

Lemma os_system_cp source target fs :
  blank_free source = true → source ≠ "" →
  blank_free target = true → target ≠ "" →
  os_system ("cp " +:+ source +:+ " " +:+ target) fs
  = match fs !! source with
    | Some text => (<[target := text]> fs, Done 0)
    | None => (fs, Done 256)
    end.
Proof.
  intros Hs Hs' Ht Ht'. unfold os_system.
  rewrite sh_words_cp by done. cbn [cp].
  by destruct (fs !! source).
Qed.

(** [os.system] never raises. *)
Lemma os_system_returns command fs :
  ∃ fs' status, os_system command fs = (fs', Done status).
Proof.
  unfold os_system.
  destruct (sh_words command) as [|program operands]; [by eauto |].
  destruct (decide (program = "cp")) as [-> | Hne].
  - destruct (cp operands fs) as [fs' status]. by eauto.
  - exists fs, (256 * 127).
    repeat (match goal with
            | |- context [match ?s with EmptyString => _ | String _ _ => _ end] =>
                destruct s as [|[[] [] [] [] [] [] [] []] ?]
            end; try reflexivity; try done).
Qed.

(** ** The scripts *)

Section Runs.
Variable P : platform.

Lemma config_path_home : config_path P = home P +:+ "/.claude.json".
Proof. reflexivity. Qed.

(** The course of a run: load, patch, copy, write. *)
Lemma run_steps s fs :
  run P s fs
  = match fs !! config_path P with
    | None => (fs, Raised FileNotFoundError)
    | Some text =>
        match json_load P text with
        | None => (fs, Raised JSONDecodeError)
        | Some config =>
            match update_loop s config with
            | Raised e => (fs, Raised e)
            | Done config' =>
                (<[config_path P := json_dump P config']>
                   (os_system ("cp " +:+ config_path P +:+ " "
                               +:+ backup_path P s) fs).1,
                 Done ())
            end
        end
    end.
Proof.
  destruct s; unfold run, setup_auto_approval, setup_yolo_mode;
    unfold mbind, io_bind, load, lift, dump, backup_path, backup_suffix;
    cbn [update_loop];
    (destruct (fs !! config_path P) as [text|]; [| reflexivity]);
    (destruct (json_load P text) as [config|]; [| reflexivity]).
  - destruct (auto_approval_loop config); [| reflexivity].
    by destruct (os_system_returns
      ("cp " +:+ config_path P +:+ " " +:+ config_path P +:+ ".backup") fs)
      as (fs1 & status & ->).
  - destruct (yolo_loop config); [| reflexivity].
    by destruct (os_system_returns
      ("cp " +:+ config_path P +:+ " " +:+ config_path P +:+ ".yolo-backup") fs)
      as (fs1 & status & ->).
Qed.

(** A run that ends without exception has loaded a document, patched it
    and written the patched document to the configuration file. *)
Lemma run_completes_inv s fs fs' :
  run P s fs = (fs', Done ()) →
  ∃ text config config',
    fs !! config_path P = Some text ∧
    json_load P text = Some config ∧
    update_loop s config = Done config' ∧
    fs' !! config_path P = Some (json_dump P config').
Proof.
  rewrite run_steps. intros Hrun.
  destruct (fs !! config_path P) as [text|]; [| discriminate Hrun].
  destruct (json_load P text) as [config|] eqn:Hload; [| discriminate Hrun].
  destruct (update_loop s config) as [config'|e] eqn:Hloop; [| discriminate Hrun].
  injection Hrun as <-. exists text, config, config'.
  by rewrite lookup_insert_eq.
Qed.

(** Conversely, where the document loads and the loop runs through, the
    run ends without exception and writes the patched document. *)
Lemma run_writes_patched s fs text config config' :
  fs !! config_path P = Some text →
  json_load P text = Some config →
  update_loop s config = Done config' →
  (run P s fs).2 = Done () ∧
  (run P s fs).1 !! config_path P = Some (json_dump P config').
Proof.
  intros Hfile Hload Hloop. rewrite run_steps, Hfile, Hload, Hloop.
  split; [reflexivity |]. apply lookup_insert_eq.
Qed.

End Runs.

(** ** Records after a run *)

Lemma new_record_approved :
  ∃ fields,
    new_record = JObj fields ∧
    fields !! "allowedTools" = Some (tool_list safe_tools) ∧
    fields !! "hasTrustDialogAccepted" = Some (JBool true) ∧
    fields !! "hasClaudeMdExternalIncludesApproved" = Some (JBool true).
Proof. eexists. split; [reflexivity |]. repeat split; by vm_compute. Qed.

Lemma ensure_instances_missing projects path :
  path ∈ instance_paths →
  projects !! path = None →
  ensure instance2_path (ensure instance1_path projects) !! path = Some new_record.
Proof.
  intros [-> | ->]%instance_path_cases Hnone.
  - rewrite ensure_lookup_ne by apply not_eq_sym, instance_paths_differ.
    rewrite (ensure_missing _ _ Hnone). apply lookup_insert_eq.
  - rewrite (ensure_missing instance2_path); [apply lookup_insert_eq |].
    by rewrite ensure_lookup_ne by apply instance_paths_differ.
Qed.

Lemma record_ok_instance projects path :
  forallb (record_ok projects) instance_paths = true →
  path ∈ instance_paths →
  projects !! path = None ∨ ∃ record, projects !! path = Some (JObj record).
Proof.
  intros [H1 H2]%record_ok_all [-> | ->]%instance_path_cases.
  - unfold record_ok in H1.
    destruct (projects !! instance1_path) as [[]|]; try discriminate; eauto.
  - unfold record_ok in H2.
    destruct (projects !! instance2_path) as [[]|]; try discriminate; eauto.
Qed.

Lemma approved_by_auto_approval config config' path :
  auto_approval_loop config = Done config' →
  path ∈ instance_paths →
  record_approved AutoApproval config' path.
Proof.
  intros (top & projects & -> & Hprojects & Hok & ->)%auto_approval_loop_inv Hpath.
  unfold record_approved. cbn [tools_of].
  destruct (record_ok_instance projects path Hok Hpath) as [Hnone | [record Hrec]].
  - destruct new_record_approved as (fields & Hnew & Hfields).
    eexists _, _, fields. split; [reflexivity |].
    split; [apply lookup_insert_eq |].
    split; [| exact Hfields].
    rewrite <- Hnew. by apply ensure_instances_missing.
  - eexists _, _, _. split; [reflexivity |].
    split; [apply lookup_insert_eq |].
    split; [by apply ensure_instances_lookup |].
    apply approve_fields.
Qed.

Lemma approved_by_yolo config config' path :
  yolo_loop config = Done config' →
  path ∈ instance_paths →
  has_record config path →
  record_approved YoloMode config' path.
Proof.
  intros (top & x & -> & Hx & Hrest)%yolo_loop_inv Hpath
         (top0 & projects & [= <-] & Hprojects & Hsome).
  rewrite Hprojects in Hx. injection Hx as <-.
  destruct Hrest as [Hok ->].
  destruct (record_ok_instance projects path Hok Hpath) as [Hnone | [record Hrec]].
  { rewrite Hnone in Hsome. by destruct Hsome. }
  unfold record_approved. cbn [tools_of].
  eexists _, _, _. split; [reflexivity |].
  split; [apply lookup_insert_eq |].
  split; [by apply boost_instances_lookup |].
  destruct (yolo_fields record) as (? & ? & ? & _). by repeat split.
Qed.

Lemma yolo_creates_no_record config config' path :
  yolo_loop config = Done config' →
  ¬ has_record config path →
  ¬ has_record config' path.
Proof.
  intros (top & x & -> & Hx & Hrest)%yolo_loop_inv Hno.
  destruct x as [| | | | | |projects]; try by rewrite Hrest.
  destruct Hrest as [_ ->].
  intros (top' & projects' & [= <-] & Hprojects' & Hsome).
  rewrite lookup_insert_eq in Hprojects'. injection Hprojects' as <-.
  apply Hno. exists top, projects. split; [done |]. split; [done |].
  destruct (projects !! path) eqn:Hpath; [by eauto |].
  rewrite boost_lookup_None in Hsome by (by apply boost_lookup_None).
  by destruct Hsome.
Qed.

(** C1, amended: after a run of either script that ends without
    exception the configuration file holds the patched document.  After
    [setup-auto-approval.py] each of the two instance paths has a record in
    it whose [allowedTools] is the script's list and whose two trust flags
    are true.  After [setup-yolo-mode.py] this holds for each instance path
    that had an entry in the document loaded, and an instance path without
    an entry there has none afterwards. *)
Theorem run_approves_records P s fs fs' :
  run P s fs = (fs', Done ()) →
  ∃ text config config',
    fs !! config_path P = Some text ∧
    json_load P text = Some config ∧
    fs' !! config_path P = Some (json_dump P config') ∧
    ∀ path, path ∈ instance_paths →
      match s with
      | AutoApproval => record_approved AutoApproval config' path
      | YoloMode =>
          (has_record config path → record_approved YoloMode config' path) ∧
          (¬ has_record config path → ¬ has_record config' path)
      end.
Proof.
  intros (text & config & config' & Hfile & Hload & Hloop & Hout)%run_completes_inv.
  exists text, config, config'. split_and!; try done.
  intros path Hpath. destruct s; cbn [update_loop] in Hloop.
  - by eapply approved_by_auto_approval.
  - split.
    + by apply approved_by_yolo.
    + by apply yolo_creates_no_record.
Qed.

Lemma run_approves_records_witness :
  ∃ text config config',
    sample_files !! config_path sample_platform = Some text ∧
    json_load sample_platform text = Some config ∧
    (run sample_platform AutoApproval sample_files).1 !! config_path sample_platform
    = Some (json_dump sample_platform config') ∧
    ∀ path, path ∈ instance_paths → record_approved AutoApproval config' path.
Proof.
  apply (run_approves_records sample_platform AutoApproval sample_files
           (run sample_platform AutoApproval sample_files).1).
  apply pair_of_snd. vm_compute. reflexivity.
Defined.

(** C1 as stated fails for [setup-yolo-mode.py]: on [{"projects": {}}]
    the run ends without exception, the patched document is the document
    loaded and it has no record for the first instance path. *)
Lemma yolo_run_creates_no_record :
  (run sample_platform YoloMode sample_files).2 = Done () ∧
  (sample_files !! config_path sample_platform) ≫= json_load sample_platform
  = Some empty_projects ∧
  update_loop YoloMode empty_projects = Done empty_projects ∧
  ¬ record_approved YoloMode empty_projects instance1_path.
Proof.
  split; [by vm_compute |]. split; [by vm_compute |]. split; [by vm_compute |].
  intros (top & projects & record & [= <-] & Hprojects & Hrec & _).
  apply lookup_singleton_Some in Hprojects as [_ [= <-]].
  by rewrite lookup_empty in Hrec.
Qed.

(** ** Failing runs *)

(** C7: when the configuration file is missing or holds no valid JSON,
    either script raises ([FileNotFoundError] for the missing file,
    [JSONDecodeError] for the invalid text) and the file system, with the
    configuration file and both backup paths, is as before. *)
Theorem load_failure_aborts P s fs :
  fs !! config_path P = None ∨
  (∃ text, fs !! config_path P = Some text ∧ json_load P text = None) →
  ∃ e,
    run P s fs = (fs, Raised e) ∧
    (fs !! config_path P = None → e = FileNotFoundError) ∧
    (is_Some (fs !! config_path P) → e = JSONDecodeError).
Proof.
  rewrite run_steps. intros [Hnone | (text & Hfile & Hload)].
  - rewrite Hnone. exists FileNotFoundError.
    split; [done |]. split; [done |]. by intros [? ?].
  - rewrite Hfile, Hload. exists JSONDecodeError. by repeat split.
Qed.

Lemma load_failure_aborts_witness :
  ∃ e,
    run sample_platform YoloMode ∅ = (∅, Raised e) ∧
    ((∅ : files) !! config_path sample_platform = None → e = FileNotFoundError) ∧
    (is_Some ((∅ : files) !! config_path sample_platform) → e = JSONDecodeError).
Proof.
  apply (load_failure_aborts sample_platform YoloMode ∅).
  left. reflexivity.
Defined.

(** C8: when the configuration file holds a JSON object without the key
    [projects], either script raises [KeyError] in its first iteration,
    before the copy and the write, and the file system is as before. *)
Theorem missing_projects_aborts P s fs text top :
  fs !! config_path P = Some text →
  json_load P text = Some (JObj top) →
  top !! "projects" = None →
  run P s fs = (fs, Raised (KeyError "projects")).
Proof.
  intros Hfile Hload Hnone. rewrite run_steps, Hfile, Hload.
  destruct s; cbn [update_loop];
    unfold auto_approval_loop, yolo_loop, instance_paths; cbn [for_each];
    unfold auto_approval_step, yolo_step, getitem; by rewrite Hnone.
Qed.

Lemma missing_projects_aborts_witness :
  run sample_platform AutoApproval {[ "/Users/deankeesey/.claude.json" := "{}" ]}
  = ({[ "/Users/deankeesey/.claude.json" := "{}" ]}, Raised (KeyError "projects")).
Proof.
  apply (missing_projects_aborts sample_platform AutoApproval
           {[ "/Users/deankeesey/.claude.json" := "{}" ]} "{}" ∅).
  - reflexivity.
  - reflexivity.
  - reflexivity.
Defined.

(** ** The permissive script as identity *)

(** C9: on a document whose [projects] mapping has neither instance path
    the loop of [setup-yolo-mode.py] returns the document as it is, and a
    run on a file with that document ends without exception and writes
    that very document back. *)
Theorem yolo_identity top projects :
  top !! "projects" = Some (JObj projects) →
  projects !! instance1_path = None →
  projects !! instance2_path = None →
  yolo_loop (JObj top) = Done (JObj top) ∧
  ∀ P fs text,
    fs !! config_path P = Some text →
    json_load P text = Some (JObj top) →
    (run P YoloMode fs).2 = Done () ∧
    (run P YoloMode fs).1 !! config_path P = Some (json_dump P (JObj top)).
Proof.
  intros Hprojects H1 H2.
  pose proof (yolo_loop_identity top projects Hprojects H1 H2) as Hid.
  split; [exact Hid |].
  intros P fs text Hfile Hload.
  rewrite run_steps, Hfile, Hload. cbn [update_loop]. rewrite Hid.
  split; [reflexivity |]. apply lookup_insert_eq.
Qed.

Lemma yolo_identity_witness :
  yolo_loop empty_projects = Done empty_projects ∧
  ∀ P fs text,
    fs !! config_path P = Some text →
    json_load P text = Some empty_projects →
    (run P YoloMode fs).2 = Done () ∧
    (run P YoloMode fs).1 !! config_path P = Some (json_dump P empty_projects).
Proof.
  apply (yolo_identity {[ "projects" := JObj ∅ ]} ∅).
  - reflexivity.
  - reflexivity.
  - reflexivity.
Defined.

(** ** The backup *)

Lemma append_fixed s t : s +:+ t = s → t = "".
Proof.
  induction s as [|c s IH]; [done |].
  rewrite append_cons. intros [= H]. by apply IH.
Qed.

Lemma backup_path_fresh P s : config_path P ≠ backup_path P s.
Proof.
  unfold backup_path. intros H. symmetry in H.
  apply append_fixed in H. by destruct s.
Qed.

Lemma config_path_plain P :
  plain (home P) = true →
  blank_free (config_path P) = true ∧ config_path P ≠ "".
Proof.
  intros Hplain. rewrite config_path_home. split.
  - rewrite blank_free_append, (plain_blank_free _ Hplain). reflexivity.
  - by intros [_ [=]]%append_empty.
Qed.

Lemma backup_path_plain P s :
  plain (home P) = true →
  blank_free (backup_path P s) = true ∧ backup_path P s ≠ "".
Proof.
  intros [Hfree Hne]%config_path_plain. unfold backup_path. split.
  - rewrite blank_free_append, Hfree. by destruct s.
  - by intros [? _]%append_empty.
Qed.



(** C6, on a home directory with a blank in its name: the shell hands
    [cp] four operands, [cp] fails and copies nothing, [os.system] returns
    its status, which the scripts drop; both go on to overwrite the
    configuration file and end without exception.  No file exists at the
    backup path, and the text the configuration file held is lost. *)
Theorem backup_missing_when_home_has_blank :
  ∀ s,
    blank_files !! config_path blank_platform = Some "{projects: {}}" ∧
    (os_system ("cp " +:+ config_path blank_platform +:+ " "
                +:+ backup_path blank_platform s) blank_files).2 = Done 256 ∧
    (run blank_platform s blank_files).2 = Done () ∧
    (run blank_platform s blank_files).1 !! backup_path blank_platform s = None ∧
    (run blank_platform s blank_files).1 !! config_path blank_platform
    = Some "{...}".
Proof. intros []; repeat split; by vm_compute. Qed.

(** * Further properties of the scripts *)

(** ** When a run ends without exception *)



(** ** Documents off the data model *)

Lemma update_loop_not_dict s config :
  is_dict config = false → update_loop s config = Raised TypeError.
Proof. by destruct config, s. Qed.

Lemma auto_approval_loop_not_dict top x :
  top !! "projects" = Some x →
  is_dict x = false →
  auto_approval_loop (JObj top) = Raised TypeError.
Proof.
  intros Hx Hno. unfold auto_approval_loop, instance_paths. cbn [for_each].
  unfold auto_approval_step, getitem. rewrite Hx, bind_Done.
  destruct x as [| | | | s0 |items|projects]; try reflexivity; try discriminate Hno.
  - unfold contains. rewrite bind_Done.
    destruct (negb _); unfold set_project_field, update_at, getitem; by rewrite Hx.
  - unfold contains. rewrite bind_Done.
    destruct (negb _); unfold set_project_field, update_at, getitem; by rewrite Hx.
Qed.

Lemma update_loop_bad_record s top projects path x :
  top !! "projects" = Some (JObj projects) →
  path ∈ instance_paths →
  projects !! path = Some x →
  is_dict x = false →
  update_loop s (JObj top) = Raised TypeError.
Proof.
  intros Hprojects Hpath Hx Hno.
  assert (Hbad : forallb (record_ok projects) instance_paths = false).
  { apply not_true_iff_false. intros [H1 H2]%record_ok_all.
    apply instance_path_cases in Hpath as [-> | ->].
    - unfold record_ok in H1. rewrite Hx in H1. by destruct x.
    - unfold record_ok in H2. rewrite Hx in H2. by destruct x. }
  destruct s; cbn [update_loop].
  - by rewrite (auto_approval_loop_object top projects Hprojects), Hbad.
  - by rewrite (yolo_loop_object top projects Hprojects), Hbad.
Qed.

(** X3: when the entry of an instance path is no [dict] ([null], a list, a
    string, a number), either script raises [TypeError] on assigning into
    it and the files are as before, even if the other path was patched in
    memory already. *)
Theorem bad_record_aborts P s fs text top projects path x :
  fs !! config_path P = Some text →
  json_load P text = Some (JObj top) →
  top !! "projects" = Some (JObj projects) →
  path ∈ instance_paths →
  projects !! path = Some x →
  is_dict x = false →
  run P s fs = (fs, Raised TypeError).
Proof.
  intros Hfile Hload Hprojects Hpath Hx Hno.
  rewrite run_steps, Hfile, Hload.
  by rewrite (update_loop_bad_record s top projects path x).
Qed.

Lemma bad_record_aborts_witness :
  run edge_platform YoloMode (edge_files "{projects: {instance-1: null}}")
  = (edge_files "{projects: {instance-1: null}}", Raised TypeError).
Proof.
  apply (bad_record_aborts edge_platform YoloMode
           (edge_files "{projects: {instance-1: null}}")
           "{projects: {instance-1: null}}"
           {[ "projects" := JObj {[ instance1_path := JNull ]} ]}
           {[ instance1_path := JNull ]} instance1_path JNull).
  - vm_compute. reflexivity.
  - vm_compute. reflexivity.
  - vm_compute. reflexivity.
  - apply instance_path_cases. left. reflexivity.
  - vm_compute. reflexivity.
  - reflexivity.
Defined.

(** X4: when the document is no JSON object (a list, a string, a number,
    [null]), evaluating [config["projects"]] raises [TypeError] in either
    script, and the files are as before. *)
Theorem not_an_object_aborts P s fs text config :
  fs !! config_path P = Some text →
  json_load P text = Some config →
  is_dict config = false →
  run P s fs = (fs, Raised TypeError).
Proof.
  intros Hfile Hload Hno.
  by rewrite run_steps, Hfile, Hload, update_loop_not_dict.
Qed.

Lemma not_an_object_aborts_witness :
  run edge_platform AutoApproval (edge_files "[]")
  = (edge_files "[]", Raised TypeError).
Proof.
  apply (not_an_object_aborts edge_platform AutoApproval (edge_files "[]")
           "[]" (JArr [])).
  - vm_compute. reflexivity.
  - vm_compute. reflexivity.
  - reflexivity.
Defined.

(** X5: when [projects] is no [dict], [setup-auto-approval.py] raises
    [TypeError]: [path not in projects] is true or raises, and the
    assignment [projects[path] = ...] is refused. *)
Theorem auto_approval_needs_dict P fs text top x :
  fs !! config_path P = Some text →
  json_load P text = Some (JObj top) →
  top !! "projects" = Some x →
  is_dict x = false →
  run P AutoApproval fs = (fs, Raised TypeError).
Proof.
  intros Hfile Hload Hx Hno.
  rewrite run_steps, Hfile, Hload. cbn [update_loop].
  by rewrite (auto_approval_loop_not_dict top x).
Qed.

Lemma auto_approval_needs_dict_witness :
  run edge_platform AutoApproval (edge_files "{projects: [/tmp/elsewhere]}")
  = (edge_files "{projects: [/tmp/elsewhere]}", Raised TypeError).
Proof.
  apply (auto_approval_needs_dict edge_platform
           (edge_files "{projects: [/tmp/elsewhere]}")
           "{projects: [/tmp/elsewhere]}"
           {[ "projects" := JArr [JStr "/tmp/elsewhere"] ]}
           (JArr [JStr "/tmp/elsewhere"])).
  - vm_compute. reflexivity.
  - vm_compute. reflexivity.
  - vm_compute. reflexivity.
  - reflexivity.
Defined.

(** X6: [setup-yolo-mode.py] behaves otherwise on such documents: when
    [projects] is a [list] or a [str] in which neither instance path
    occurs, [path in projects] is false twice, the loop does nothing and
    the run writes the document back as it was. *)
Theorem yolo_skips_other_containers P fs text top x :
  fs !! config_path P = Some text →
  json_load P text = Some (JObj top) →
  top !! "projects" = Some x →
  is_dict x = false →
  forallb (skipped x) instance_paths = true →
  yolo_loop (JObj top) = Done (JObj top) ∧
  (run P YoloMode fs).2 = Done () ∧
  (run P YoloMode fs).1 !! config_path P = Some (json_dump P (JObj top)).
Proof.
  intros Hfile Hload Hx Hno Hskip.
  assert (Hloop : yolo_loop (JObj top) = Done (JObj top)).
  { rewrite (yolo_loop_not_object top x Hx), Hskip; [done |].
    intros projects ->. discriminate Hno. }
  split; [exact Hloop |].
  by apply (run_writes_patched P YoloMode fs text (JObj top)).
Qed.

Lemma yolo_skips_other_containers_witness :
  yolo_loop listed_projects = Done listed_projects ∧
  (run edge_platform YoloMode (edge_files "{projects: [/tmp/elsewhere]}")).2
  = Done () ∧
  (run edge_platform YoloMode (edge_files "{projects: [/tmp/elsewhere]}")).1
    !! config_path edge_platform
  = Some (json_dump edge_platform listed_projects).
Proof.
  apply (yolo_skips_other_containers edge_platform
           (edge_files "{projects: [/tmp/elsewhere]}")
           "{projects: [/tmp/elsewhere]}"
           {[ "projects" := JArr [JStr "/tmp/elsewhere"] ]}
           (JArr [JStr "/tmp/elsewhere"])).
  - vm_compute. reflexivity.
  - vm_compute. reflexivity.
  - vm_compute. reflexivity.
  - reflexivity.
  - vm_compute. reflexivity.
Defined.

(** ** The permissive script: idempotence and frame *)

Lemma yolo_other record name :
  name ∉ yolo_fields_assigned → yolo record !! name = record !! name.
Proof.
  intros Hname. unfold yolo, approve.
  rewrite !lookup_insert_ne; [done | ..]; intros <-; apply Hname;
    unfold yolo_fields_assigned, approval_fields; cbn [app];
    rewrite !elem_of_cons; tauto.
Qed.

Lemma yolo_twice record : yolo (yolo record) = yolo record.
Proof.
  apply map_eq; intros name. unfold yolo, approve.
  rewrite !lookup_insert. by repeat case_decide.
Qed.

Lemma boost_twice path projects :
  boost path (boost path projects) = boost path projects.
Proof.
  destruct (projects !! path) as [x|] eqn:Hx.
  - destruct x as [| | | | | |record];
      try (unfold boost; by rewrite !Hx).
    rewrite (boost_record _ _ _ Hx).
    erewrite boost_record by apply lookup_insert_eq.
    by rewrite insert_insert_eq, yolo_twice.
  - by rewrite !(boost_missing _ _ Hx).
Qed.

Lemma boost_commute projects :
  boost instance1_path (boost instance2_path projects)
  = boost instance2_path (boost instance1_path projects).
Proof.
  unfold boost at 1 3.
  rewrite !boost_lookup_ne
    by (apply instance_paths_differ || apply not_eq_sym, instance_paths_differ).
  unfold boost.
  destruct (projects !! instance1_path) as [[]|], (projects !! instance2_path) as [[]|];
    try reflexivity.
  apply insert_insert_ne, instance_paths_differ.
Qed.

Lemma boost_instances_twice projects :
  boost instance2_path (boost instance1_path
    (boost instance2_path (boost instance1_path projects)))
  = boost instance2_path (boost instance1_path projects).
Proof. by rewrite boost_commute, boost_twice, boost_twice. Qed.

Lemma record_ok_boost_same path projects :
  record_ok projects path = true → record_ok (boost path projects) path = true.
Proof.
  unfold record_ok, boost.
  destruct (projects !! path) as [[]|] eqn:Hx; rewrite ?Hx; try done.
  by rewrite lookup_insert_eq.
Qed.

Lemma boost_instances_ok projects :
  forallb (record_ok projects) instance_paths = true →
  forallb (record_ok (boost instance2_path (boost instance1_path projects)))
    instance_paths = true.
Proof.
  intros [H1 H2]%record_ok_all. apply record_ok_all. split.
  - rewrite record_ok_boost by apply not_eq_sym, instance_paths_differ.
    by apply record_ok_boost_same.
  - apply record_ok_boost_same.
    by rewrite record_ok_boost by apply instance_paths_differ.
Qed.

Lemma dom_boost path projects : dom (boost path projects) = dom projects.
Proof.
  unfold boost. destruct (projects !! path) as [[]|] eqn:Hx; try reflexivity.
  apply dom_insert_lookup_L. by rewrite Hx.
Qed.

Lemma boost_instances_other projects path :
  path ∉ instance_paths →
  boost instance2_path (boost instance1_path projects) !! path = projects !! path.
Proof.
  rewrite instance_path_cases. intros Hno.
  rewrite !boost_lookup_ne; [done | ..]; intros <-; tauto.
Qed.

(** A result of the permissive loop is a fixed point of it. *)
Lemma yolo_loop_fixed config config' :
  yolo_loop config = Done config' → yolo_loop config' = Done config'.
Proof.
  intros Hrun.
  destruct (yolo_loop_inv config config' Hrun) as (top & x & -> & Hx & Hrest).
  destruct x as [| | | | | |projects]; try (subst config'; exact Hrun).
  destruct Hrest as [Hok ->].
  erewrite yolo_loop_runs;
    [| apply lookup_insert_eq | by apply boost_instances_ok].
  by rewrite insert_insert_eq, boost_instances_twice.
Qed.

(** X7: the loop of [setup-yolo-mode.py] is idempotent: on its own result it
    returns that result, and where the first run raises the sequence of
    both raises the same. *)
Theorem yolo_idempotent config :
  yolo_loop config ≫= yolo_loop = yolo_loop config.
Proof.
  destruct (yolo_loop config) as [config'|e] eqn:Hrun; [| reflexivity].
  rewrite bind_Done. by apply (yolo_loop_fixed config).
Qed.

(** X8: where an instance path has a record, the loop of [setup-yolo-mode.py]
    changes in that record the five fields it assigns and no other; the
    entries of [projects] at other paths than the two instance paths, the
    set of keys of [projects] and the other top-level keys of the document
    are as before. *)
Theorem yolo_frame top projects path record :
  top !! "projects" = Some (JObj projects) →
  forallb (record_ok projects) instance_paths = true →
  path ∈ instance_paths →
  projects !! path = Some (JObj record) →
  ∃ top' projects' record',
    yolo_loop (JObj top) = Done (JObj top') ∧
    top' !! "projects" = Some (JObj projects') ∧
    projects' !! path = Some (JObj record') ∧
    (∀ name, name ∉ yolo_fields_assigned → record' !! name = record !! name) ∧
    (∀ other, other ∉ instance_paths → projects' !! other = projects !! other) ∧
    dom projects' = dom projects ∧
    (∀ key, key ≠ "projects" → top' !! key = top !! key).
Proof.
  intros Hprojects Hok Hpath Hrec.
  eexists _, _, _. split; [by apply yolo_loop_runs |].
  split; [apply lookup_insert_eq |].
  split; [by apply boost_instances_lookup |].
  split; [intros name; apply yolo_other |].
  split; [apply boost_instances_other |].
  split; [by rewrite !dom_boost |].
  intros key Hkey. by rewrite lookup_insert_ne.
Qed.

Lemma yolo_frame_witness :
  ∃ top' projects' record',
    yolo_loop both_projects = Done (JObj top') ∧
    top' !! "projects" = Some (JObj projects') ∧
    projects' !! instance1_path = Some (JObj record') ∧
    record' !! "history" = Some (JArr [JStr "ls"]) ∧
    top' !! "numStartups" = Some (JInt 7).
Proof.
  destruct (yolo_frame
              (<["numStartups" := JInt 7]>
                 {[ "projects" := JObj (<[instance2_path := JObj (yolo used_record)]>
                                          {[ instance1_path := JObj used_record ]}) ]})
              (<[instance2_path := JObj (yolo used_record)]>
                 {[ instance1_path := JObj used_record ]})
              instance1_path used_record)
    as (top' & projects' & record' & Hrun & Hget & Hrec & Hfields & _ & _ & Htop).
  - reflexivity.
  - reflexivity.
  - apply instance_path_cases. left. reflexivity.
  - reflexivity.
  - exists top', projects', record'.
    split; [exact Hrun |]. split; [exact Hget |]. split; [exact Hrec |].
    split.
    + rewrite Hfields; [reflexivity |].
      unfold yolo_fields_assigned, approval_fields. cbn [app].
      rewrite !elem_of_cons, elem_of_nil.
      intros [H | [H | [H | [H | [H | []]]]]]; discriminate H.
    + rewrite Htop; [reflexivity | discriminate].
Defined.

(** ** The standard script: keys, and the permissive script after it *)

Lemma dom_ensure path projects :
  dom (ensure path projects) = {[path]} ∪ dom projects.
Proof.
  unfold ensure. destruct (projects !! path) as [[]|]; apply dom_insert_L.
Qed.

Lemma ensure_instances_ok projects :
  forallb (record_ok (ensure instance2_path (ensure instance1_path projects)))
    instance_paths = true.
Proof.
  apply record_ok_all. split.
  - rewrite record_ok_ensure by apply not_eq_sym, instance_paths_differ.
    apply record_ok_ensure_same.
  - apply record_ok_ensure_same.
Qed.


(** X9: the loop of [setup-auto-approval.py] removes nothing: where it runs
    through, the document keeps its top-level keys and their values other
    than [projects], and [projects] keeps its keys, gains the two instance
    paths and keeps the entries at every other path. *)
Theorem auto_approval_keeps_keys config config' :
  auto_approval_loop config = Done config' →
  ∃ top projects top' projects',
    config = JObj top ∧ top !! "projects" = Some (JObj projects) ∧
    config' = JObj top' ∧ top' !! "projects" = Some (JObj projects') ∧
    dom top' = dom top ∧
    (∀ key, key ≠ "projects" → top' !! key = top !! key) ∧
    dom projects' = {[instance1_path; instance2_path]} ∪ dom projects ∧
    (∀ other, other ∉ instance_paths → projects' !! other = projects !! other).
Proof.
  intros (top & projects & -> & Hprojects & Hok & ->)%auto_approval_loop_inv.
  eexists top, projects, _, _.
  split; [reflexivity |]. split; [exact Hprojects |].
  split; [reflexivity |]. split; [apply lookup_insert_eq |].
  split; [apply dom_insert_lookup_L; by rewrite Hprojects |].
  split; [intros key Hkey; by rewrite lookup_insert_ne |].
  split; [| apply ensure_instances_other].
  rewrite !dom_ensure. set_solver.
Qed.

Lemma auto_approval_keeps_keys_witness :
  ∃ top projects top' projects' : gmap string json,
    one_project = JObj top ∧ top !! "projects" = Some (JObj projects) ∧
    auto_approval_loop one_project = Done (JObj top') ∧
    top' !! "projects" = Some (JObj projects') ∧
    dom projects' = {[instance1_path; instance2_path]} ∪ dom projects.
Proof.
  assert (Hrun : auto_approval_loop one_project
                 = Done (JObj (<["projects" :=
                     JObj (ensure instance2_path (ensure instance1_path
                             {[ instance1_path := JObj used_record ]}))]>
                     {[ "projects" :=
                          JObj {[ instance1_path := JObj used_record ]} ]}))).
  { vm_compute. reflexivity. }
  destruct (auto_approval_keeps_keys _ _ Hrun)
    as (top & projects & top' & projects' & H1 & H2 & H3 & H4 & _ & _ & H7 & _).
  rewrite H3 in Hrun.
  exists top, projects, top', projects'.
  split; [exact H1 |]. split; [exact H2 |].
  split; [exact Hrun |]. split; [exact H4 | exact H7].
Defined.

(** X10: running [setup-yolo-mode.py] on what [setup-auto-approval.py] wrote
    never fails and never skips: the standard script has created both
    records, so afterwards both instance paths hold the thirteen YOLO
    tools, the two trust flags and the two YOLO flags. *)
Theorem yolo_after_auto_approval config config1 :
  auto_approval_loop config = Done config1 →
  ∃ config2,
    yolo_loop config1 = Done config2 ∧
    ∀ path, path ∈ instance_paths →
      record_approved YoloMode config2 path ∧ record_in_yolo_mode config2 path.
Proof.
  intros Hrun.
  destruct (auto_approval_loop_inv config config1 Hrun)
    as (top & projects & -> & Hprojects & Hok & ->).
  eexists. split.
  { apply yolo_loop_runs; [apply lookup_insert_eq | apply ensure_instances_ok]. }
  intros path Hpath.
  destruct (approved_by_auto_approval _ _ path Hrun Hpath)
    as (top1 & projects1 & record & [= <-] & Hprojects1 & Hrec & _).
  rewrite lookup_insert_eq in Hprojects1. injection Hprojects1 as <-.
  pose proof (boost_instances_lookup _ path record Hpath Hrec) as Hboost.
  destruct (yolo_fields record) as (Htools & Htrust & Hmd & Hauto & Hyolo).
  split.
  - eexists _, _, _. split; [reflexivity |].
    split; [apply lookup_insert_eq |]. split; [exact Hboost |].
    by repeat split.
  - eexists _, _, _. split; [reflexivity |].
    split; [apply lookup_insert_eq |]. split; [exact Hboost |].
    by split.
Qed.

Lemma yolo_after_auto_approval_witness :
  ∃ config2,
    yolo_loop fresh_projects = Done config2 ∧
    ∀ path, path ∈ instance_paths →
      record_approved YoloMode config2 path ∧ record_in_yolo_mode config2 path.
Proof.
  apply (yolo_after_auto_approval empty_projects fresh_projects).
  vm_compute. reflexivity.
Defined.

(** ** Runs in sequence *)

(** The files after a run that ends without exception, for a home
    directory of plain characters. *)
Lemma run_plain P s fs text config config' :
  plain (home P) = true →
  fs !! config_path P = Some text →
  json_load P text = Some config →
  update_loop s config = Done config' →
  run P s fs
  = (<[config_path P := json_dump P config']> (<[backup_path P s := text]> fs),
     Done ()).
Proof.
  intros Hplain Hfile Hload Hloop.
  destruct (config_path_plain P Hplain) as [Hsrc Hsrc'].
  destruct (backup_path_plain P s Hplain) as [Hdst Hdst'].
  rewrite run_steps, Hfile, Hload, Hloop, os_system_cp by done.
  by rewrite Hfile.
Qed.


Lemma backup_paths_differ P s s' : s' ≠ s → backup_path P s' ≠ backup_path P s.
Proof.
  intros Hne Heq. unfold backup_path in Heq.
  apply (inj (String.app (config_path P))) in Heq.
  by destruct s, s'.
Qed.



(** X13: the two scripts keep their backups apart: a run of one script leaves
    the backup file of the other as it was. *)
Theorem run_keeps_other_backup P s s' fs :
  plain (home P) = true →
  (run P s fs).2 = Done () →
  s' ≠ s →
  (run P s fs).1 !! backup_path P s' = fs !! backup_path P s'.
Proof.
  intros Hplain Hdone Hne.
  destruct (run_completes_inv P s fs (run P s fs).1 (pair_of_snd _ _ Hdone))
    as (text & config & config' & Hfile & Hload & Hloop & _).
  rewrite (run_plain P s fs text config config') by done. cbn [fst].
  rewrite lookup_insert_ne by apply backup_path_fresh.
  by rewrite lookup_insert_ne by (apply not_eq_sym, backup_paths_differ; done).
Qed.

Lemma run_keeps_other_backup_witness :
  (run sample_platform YoloMode sample_files).1
    !! backup_path sample_platform AutoApproval
  = sample_files !! backup_path sample_platform AutoApproval.
Proof.
  apply (run_keeps_other_backup sample_platform YoloMode AutoApproval sample_files).
  - vm_compute. reflexivity.
  - vm_compute. reflexivity.
  - discriminate.
Defined.

(** ** What the scripts print *)

(** X14: [setup-yolo-mode.py] reports the activation whether or not it changed
    anything: on a document whose [projects] mapping has neither instance
    path it writes the document back as it was, and still prints the
    activation line and one line for each of the thirteen tools. *)
Theorem yolo_reports_without_change P fs text top projects :
  fs !! config_path P = Some text →
  json_load P text = Some (JObj top) →
  top !! "projects" = Some (JObj projects) →
  projects !! instance1_path = None →
  projects !! instance2_path = None →
  ∃ fs',
    main P YoloMode fs = (fs', yolo_report P, Done ()) ∧
    fs' !! config_path P = Some (json_dump P (JObj top)) ∧
    yolo_report P !! 0%nat = Some "🚀 YOLO MODE ACTIVATED!" ∧
    ∀ tool, tool ∈ yolo_tools → ("  🎯 " +:+ tool) ∈ yolo_report P.
Proof.
  intros Hfile Hload Hprojects H1 H2.
  pose proof (yolo_loop_identity top projects Hprojects H1 H2) as Hid.
  unfold main. rewrite run_steps, Hfile, Hload. cbn [update_loop]. rewrite Hid.
  eexists. split; [reflexivity |]. split; [apply lookup_insert_eq |].
  split; [reflexivity |].
  intros tool Htool. unfold yolo_report.
  apply elem_of_app. right. apply elem_of_app. left.
  apply list_elem_of_fmap. by exists tool.
Qed.

Lemma yolo_reports_without_change_witness :
  ∃ fs',
    main sample_platform YoloMode sample_files
    = (fs', yolo_report sample_platform, Done ()) ∧
    fs' !! config_path sample_platform
    = Some (json_dump sample_platform empty_projects) ∧
    yolo_report sample_platform !! 0%nat = Some "🚀 YOLO MODE ACTIVATED!" ∧
    ∀ tool, tool ∈ yolo_tools → ("  🎯 " +:+ tool) ∈ yolo_report sample_platform.
Proof.
  apply (yolo_reports_without_change sample_platform sample_files
           "{projects: {}}" {[ "projects" := JObj ∅ ]} ∅).
  - vm_compute. reflexivity.
  - vm_compute. reflexivity.
  - vm_compute. reflexivity.
  - reflexivity.
  - reflexivity.
Defined.

(** X15: [setup-auto-approval.py] prints what it wrote: after a run that ends
    without exception the output is three header lines followed by one
    line per tool, and the tools named, in that order, are the
    [allowedTools] of both instance records in the document written. *)
Theorem auto_approval_reports_written_tools P fs fs' out :
  main P AutoApproval fs = (fs', out, Done ()) →
  ∃ config' tools,
    fs' !! config_path P = Some (json_dump P config') ∧
    drop 3 out = (λ tool, "  ✓ " +:+ tool) <$> tools ∧
    length out = (3 + length tools)%nat ∧
    ∀ path, path ∈ instance_paths →
      ∃ top projects record,
        config' = JObj top ∧ top !! "projects" = Some (JObj projects) ∧
        projects !! path = Some (JObj record) ∧
        record !! "allowedTools" = Some (tool_list tools).
Proof.
  unfold main. destruct (run P AutoApproval fs) as [fs1 [[]|e]] eqn:Hrun;
    [| discriminate].
  intros [= <- <-].
  destruct (run_completes_inv P AutoApproval fs fs1 Hrun)
    as (text & config & config' & Hfile & Hload & Hloop & Hout).
  exists config', safe_tools. split; [exact Hout |].
  split; [reflexivity |]. split; [reflexivity |].
  intros path Hpath.
  destruct (approved_by_auto_approval config config' path Hloop Hpath)
    as (top & projects & record & ? & ? & ? & ? & _).
  by exists top, projects, record.
Qed.

Lemma auto_approval_reports_written_tools_witness :
  ∃ config' tools,
    (run sample_platform AutoApproval sample_files).1 !! config_path sample_platform
    = Some (json_dump sample_platform config') ∧
    drop 3 (auto_approval_report sample_platform)
    = (λ tool, "  ✓ " +:+ tool) <$> tools ∧
    length (auto_approval_report sample_platform) = (3 + length tools)%nat ∧
    ∀ path, path ∈ instance_paths →
      ∃ top projects record,
        config' = JObj top ∧ top !! "projects" = Some (JObj projects) ∧
        projects !! path = Some (JObj record) ∧
        record !! "allowedTools" = Some (tool_list tools).
Proof.
  apply (auto_approval_reports_written_tools sample_platform sample_files).
  unfold main.
  rewrite (pair_of_snd (run sample_platform AutoApproval sample_files) (Done ()));
    [reflexivity | vm_compute; reflexivity].
Defined.
